(** * MAX31855 thermocouple driver (max31855.py): shallow embedding

    The driver reads one 4-byte frame over SPI, classifies it as a
    transport failure or a 32-bit word, and decodes the word into two
    temperatures and a fault string.  Python integers are modelled by [Z]
    with [Z.land] / [Z.shiftr], the bytearray by four [Byte.byte]s, the
    result dictionary by a record, and Python floats by the IEEE 754
    specification floats of [SpecFloat] in the two formats MicroPython can
    be built with. *)

From Stdlib Require Import ZArith QArith List Ascii String Bool Lia.
From Stdlib Require Import Floats.SpecFloat.
From Stdlib Require Init.Byte Strings.Byte.
Import ListNotations.

Local Open Scope Z_scope.

(** ** Python values used by the driver *)

Module Py.

(** Truth value of an [int]: non-zero. *)
Definition truthy_int (z : Z) : bool := negb (z =? 0).

(** Truth value of a [list]: non-empty. *)
Definition truthy_list {A : Type} (l : list A) : bool :=
  match l with [] => false | _ :: _ => true end.

(** Truth value of [None] or a [str]: a non-empty string. *)
Definition truthy_str (s : option string) : bool :=
  match s with
  | None => false
  | Some EmptyString => false
  | Some (String _ _) => true
  end.

(** [x is not None]. *)
Definition is_not_None {A : Type} (x : option A) : bool :=
  match x with Some _ => true | None => false end.

(** [sep.join(l)]. *)
Definition join (sep : string) (l : list string) : string :=
  String.concat sep l.

(** [str(b)] for a [bool]. *)
Definition str_bool (b : bool) : string :=
  if b then "True"%string else "False"%string.

(** [str(x)] for [None] or a [str]. *)
Definition str_opt (x : option string) : string :=
  match x with Some s => s | None => "None"%string end.

(** The upper-case hexadecimal digit of [d], for [0 <= d < 16]. *)
Definition hex_digit_upper (d : Z) : ascii :=
  match d with
  | 0 => "0" | 1 => "1" | 2 => "2" | 3 => "3" | 4 => "4" | 5 => "5"
  | 6 => "6" | 7 => "7" | 8 => "8" | 9 => "9" | 10 => "A" | 11 => "B"
  | 12 => "C" | 13 => "D" | 14 => "E" | _ => "F"
  end%char.

(** The hexadecimal digits of [n >= 0], most significant first and without
    leading zeros; [fuel] bounds their number. *)
Fixpoint hex_upper (fuel : nat) (n : Z) : list ascii :=
  match fuel with
  | O => []
  | S fuel' =>
      (if n / 16 =? 0 then [] else hex_upper fuel' (n / 16))
      ++ [hex_digit_upper (n mod 16)]
  end.

(** [format(n, "X")] for [n >= 0]. *)
Definition format_X (n : Z) : list ascii :=
  hex_upper (S (Z.to_nat (Z.log2 n))) n.

(** Zero padding on the left up to [width] characters. *)
Definition zfill (width : nat) (s : list ascii) : list ascii :=
  repeat "0"%char (width - List.length s) ++ s.

(** [format(z, "08X")]: upper-case hexadecimal, zero padded to eight
    characters, the sign first. *)
Definition format_08X (z : Z) : string :=
  string_of_list_ascii
    (if z <? 0 then "-"%char :: zfill 7 (format_X (- z))
     else zfill 8 (format_X z)).

End Py.

(** ** Floating point

    [float] is single precision (MICROPY_FLOAT_IMPL_FLOAT) or double
    precision (MICROPY_FLOAT_IMPL_DOUBLE, and CPython); the driver is
    modelled for both. *)

Inductive float_impl : Set := FloatSingle | FloatDouble.

Module Float.

Definition prec (i : float_impl) : Z :=
  match i with FloatSingle => 24 | FloatDouble => 53 end.

Definition emax (i : float_impl) : Z :=
  match i with FloatSingle => 128 | FloatDouble => 1024 end.

(** [float(z)] for an integer [z], rounded to nearest even. *)
Definition of_int (i : float_impl) (z : Z) : spec_float :=
  binary_normalize (prec i) (emax i) z 0 false.

(** The literal [m * 2^e] ([m > 0]) as a float. *)
Definition literal (i : float_impl) (m e : Z) : spec_float :=
  binary_normalize (prec i) (emax i) m e false.

Definition mul (i : float_impl) (x y : spec_float) : spec_float :=
  SFmul (prec i) (emax i) x y.

(** [z * f] with [z] an [int] and [f] a [float]: the integer is converted
    first. *)
Definition int_mul (i : float_impl) (z : Z) (f : spec_float) : spec_float :=
  mul i (of_int i z) f.

(** The real number a finite float stands for. *)
Definition value (f : spec_float) : option Q :=
  match f with
  | S754_zero _ => Some 0%Q
  | S754_finite s m e =>
      let n := if s then Z.neg m else Z.pos m in
      Some (match e with
            | Z0 => n # 1
            | Z.pos p => (n * 2 ^ Z.pos p) # 1
            | Z.neg p => n # (2 ^ p)
            end)
  | S754_infinity _ => None
  | S754_nan => None
  end.

(** [f] is finite and stands exactly for the rational [q]. *)
Definition represents (f : spec_float) (q : Q) : Prop :=
  match value f with Some v => (v == q)%Q | None => False end.

Definition representsb (f : spec_float) (q : Q) : bool :=
  match value f with Some v => Qeq_bool v q | None => false end.

(** [f] is finite and lies in the closed interval from [lo] to [hi]. *)
Definition within (f : spec_float) (lo hi : Q) : Prop :=
  match value f with Some v => (lo <= v <= hi)%Q | None => False end.

End Float.

(** ** The driver *)

Definition byte : Set := Byte.byte.

(** [bytearray(4)] after [spi.readinto]: always exactly four bytes, first
    received byte first. *)
Definition bytearray4 : Type := (byte * byte * byte * byte)%type.

Definition byte_val (b : byte) : Z := Z.of_N (Byte.to_N b).

Definition bytes4_eqb (x y : bytearray4) : bool :=
  let '(x0, x1, x2, x3) := x in
  let '(y0, y1, y2, y3) := y in
  Byte.eqb x0 y0 && Byte.eqb x1 y1 && Byte.eqb x2 y2 && Byte.eqb x3 y3.

(** [struct.unpack(">I", data)[0]]. *)
Definition struct_unpack_BE_I (data : bytearray4) : Z :=
  let '(b0, b1, b2, b3) := data in
  Z.lor (Z.shiftl (byte_val b0) 24)
    (Z.lor (Z.shiftl (byte_val b1) 16)
       (Z.lor (Z.shiftl (byte_val b2) 8) (byte_val b3))).

Module MAX31855.

(** Fault bit definitions. *)
Definition FAULT_OPEN : Z := 0x01.
Definition FAULT_GND : Z := 0x02.
Definition FAULT_VCC : Z := 0x04.
Definition FAULT_GENERIC : Z := 0x10000.

Definition all_zero : bytearray4 := (Byte.x00, Byte.x00, Byte.x00, Byte.x00).
Definition all_high : bytearray4 := (Byte.xff, Byte.xff, Byte.xff, Byte.xff).

(** [read_raw].  [data] is the buffer as [spi.readinto] filled it between
    the two chip-select writes; the returned pair depends on nothing
    else. *)
Definition read_raw (data : bytearray4) : option Z * option string :=
  if bytes4_eqb data all_zero then
    (None, Some "No SPI response (disconnected)"%string)
  else if bytes4_eqb data all_high then
    (None, Some "SPI bus error (all high)"%string)
  else (Some (struct_unpack_BE_I data), None).

Definition get_fault_string (raw_value : Z) : option string :=
  let faults : list string := [] in
  let faults :=
    if Py.truthy_int (Z.land raw_value FAULT_OPEN)
    then faults ++ ["Open Circuit"%string] else faults in
  let faults :=
    if Py.truthy_int (Z.land raw_value FAULT_GND)
    then faults ++ ["Short to GND"%string] else faults in
  let faults :=
    if Py.truthy_int (Z.land raw_value FAULT_VCC)
    then faults ++ ["Short to VCC"%string] else faults in
  if Py.truthy_list faults then Some (Py.join " + " faults)
  else if Py.truthy_int (Z.land raw_value FAULT_GENERIC)
       then Some "Unknown Fault"%string
       else None.

(** The dictionary [read_all] returns. *)
Record Reading : Type := mkReading {
  tc_temp : option spec_float;
  internal_temp : option spec_float;
  fault : option string;
  raw : option Z;
  connected : bool
}.

Definition set_tc_temp (r : Reading) (v : option spec_float) : Reading :=
  mkReading v (internal_temp r) (fault r) (raw r) (connected r).

Definition set_internal_temp (r : Reading) (v : option spec_float) : Reading :=
  mkReading (tc_temp r) v (fault r) (raw r) (connected r).

Definition set_fault (r : Reading) (v : option string) : Reading :=
  mkReading (tc_temp r) (internal_temp r) v (raw r) (connected r).

(** What [read_temp_c] returns: [False], [None] or a float. *)
Inductive temp_result : Type :=
| RFalse
| RNone
| RFloat (t : spec_float).

(** What [print] was given: a string or the result dictionary. *)
Inductive printed : Type :=
| PrintStr (s : string)
| PrintDict (d : Reading).

(** A value returned or an exception raised. *)
Inductive outcome (A : Type) : Type :=
| Returns (a : A)
| Raises (exn : string).

Arguments Returns {A} a.
Arguments Raises {A} exn.

Definition newline : string := String (Ascii.ascii_of_nat 10) EmptyString.

(** The three bytes the source has before "C" in the temperature lines. *)
Definition degree_C : string :=
  String (Ascii.ascii_of_nat 236)
    (String (Ascii.ascii_of_nat 167)
       (String (Ascii.ascii_of_nat 184) "C"%string)).

Section WithFloat.

Variable impl : float_impl.

(** The literals [0.25] and [0.0625]. *)
Definition f0_25 : spec_float := Float.literal impl 1 (-2).
Definition f0_0625 : spec_float := Float.literal impl 1 (-4).

(** The body of [read_all] after [raw_value, error = self.read_raw()]. *)
Definition read_all_from (rr : option Z * option string) : Reading :=
  let '(raw_value, error) := rr in
  let result :=
    {| tc_temp := None;
       internal_temp := None;
       fault := None;
       raw := raw_value;
       connected := Py.is_not_None raw_value |} in
  match raw_value with
  | None =>
      (* result["connected"] is [raw_value is not None]: not connected *)
      set_fault result error
  | Some raw_value =>
      (* Check for faults *)
      let result :=
        if Py.truthy_int (Z.land raw_value FAULT_GENERIC)
        then set_fault result (get_fault_string raw_value)
        else result in
      (* Decode thermocouple temperature (bits 31-18) *)
      let result :=
        if negb (Py.truthy_str (fault result)) then
          let tc_raw := Z.land (Z.shiftr raw_value 18) 0x3FFF in
          let tc_raw :=
            if Py.truthy_int (Z.land raw_value 0x80000000)
            then tc_raw - 0x4000 else tc_raw in
          set_tc_temp result (Some (Float.int_mul impl tc_raw f0_25))
        else result in
      (* Decode internal temperature (bits 15-4) *)
      let internal_raw := Z.land (Z.shiftr raw_value 4) 0x7FF in
      let internal_raw :=
        if Py.truthy_int (Z.land raw_value 0x8000)
        then internal_raw - 0x800 else internal_raw in
      set_internal_temp result (Some (Float.int_mul impl internal_raw f0_0625))
  end.

Definition read_all (data : bytearray4) : Reading :=
  read_all_from (read_raw data).

(** [read_temp_c]: the returned value and the lines printed. *)
Definition read_temp_c (data : bytearray4) : temp_result * list string :=
  let data := read_all data in
  if negb (connected data) then (RFalse, [])
  else if Py.truthy_str (fault data) then
    (RNone,
     [("MAX31855 Fault: " ++
       match fault data with Some s => s | None => "None" end)%string])
  else
    (match tc_temp data with Some t => RFloat t | None => RNone end, []).

(** [read_internal]: the returned value and what was printed. *)
Definition read_internal (data : bytearray4) : temp_result * list printed :=
  let data := read_all data in
  let out := [PrintDict data] in
  if negb (connected data) then (RFalse, out)
  else
    (match internal_temp data with Some t => RFloat t | None => RNone end,
     out).

Section Diagnose.

(** [f"{x:.2f}"]: the float formatting of the Python runtime. *)
Variable format_2f : spec_float -> string.

(** The body of [diagnose] after [data = self.read_all()]. *)
Definition diagnose_from (data : Reading) : outcome string :=
  let lines : list string := [] in
  let lines :=
    lines ++ [("Connected: " ++ Py.str_bool (connected data))%string] in
  if connected data then
    match raw data with
    | None =>
        (* the format 08X applied to None *)
        Raises "TypeError"%string
    | Some raw_value =>
        let lines :=
          lines ++ [("Raw value: 0x" ++ Py.format_08X raw_value)%string] in
        let lines :=
          match tc_temp data with
          | Some t =>
              lines ++ [("TC Temp: " ++ format_2f t ++ degree_C)%string]
          | None => lines
          end in
        let lines :=
          match internal_temp data with
          | Some t =>
              lines ++ [("Internal: " ++ format_2f t ++ degree_C)%string]
          | None => lines
          end in
        let lines :=
          if Py.truthy_str (fault data)
          then lines ++ [("FAULT: " ++ Py.str_opt (fault data))%string]
          else lines in
        Returns (Py.join newline lines)
    end
  else
    let lines :=
      lines ++ [("Error: " ++ Py.str_opt (fault data))%string] in
    Returns (Py.join newline lines).

Definition diagnose (data : bytearray4) : outcome string :=
  diagnose_from (read_all data).

End Diagnose.

End WithFloat.

End MAX31855.

(** ** The decoding as the specification words it

    Bit fields by division and remainder, sign extension by subtracting the
    modulus of the field when its top bit is set. *)

Module Spec.

Definition field (raw lo width : Z) : Z := (raw / 2 ^ lo) mod 2 ^ width.

(** Bits 31-18, sign bit 31, in units of 0.25 degrees. *)
Definition tc_counts (raw : Z) : Z :=
  field raw 18 14 - (if Z.testbit raw 31 then 0x4000 else 0).

(** Bits 14-4, sign bit 15, in units of 0.0625 degrees. *)
Definition internal_counts (raw : Z) : Z :=
  field raw 4 11 - (if Z.testbit raw 15 then 0x800 else 0).

(** The specific causes, by bit number. *)
Definition cause_table : list (Z * string) :=
  [(0, "Open Circuit"%string);
   (1, "Short to GND"%string);
   (2, "Short to VCC"%string)].

(** Names of the causes whose bit is set, in bit order. *)
Definition cause_names (raw : Z) : list string :=
  map snd (filter (fun c => Z.testbit raw (fst c)) cause_table).

(** The four bytes of a 32-bit word, most significant first. *)
Definition byte_of_Z (z : Z) : byte :=
  match Byte.of_N (Z.to_N (z mod 256)) with
  | Some b => b
  | None => Byte.x00
  end.

Definition be_bytes (w : Z) : bytearray4 :=
  (byte_of_Z (w / 2 ^ 24), byte_of_Z (w / 2 ^ 16),
   byte_of_Z (w / 2 ^ 8), byte_of_Z w).

(** Exactly [k] upper-case hexadecimal digits of [z], most significant
    first. *)
Fixpoint fixed_hex (k : nat) (z : Z) : list ascii :=
  match k with
  | O => []
  | S k' => fixed_hex k' (z / 16) ++ [Py.hex_digit_upper (z mod 16)]
  end.

(** The value of a hexadecimal digit and of a string of them. *)
Definition hex_digit_value (c : ascii) : Z :=
  match c with
  | "0" => 0 | "1" => 1 | "2" => 2 | "3" => 3 | "4" => 4 | "5" => 5
  | "6" => 6 | "7" => 7 | "8" => 8 | "9" => 9 | "A" => 10 | "B" => 11
  | "C" => 12 | "D" => 13 | "E" => 14 | "F" => 15 | _ => 0
  end%char.

Definition hex_value (s : list ascii) : Z :=
  fold_left (fun acc c => acc * 16 + hex_digit_value c) s 0.

(** The frame the chip sends for a thermocouple reading of [tc] quarter
    degrees and an internal reading of [internal] sixteenths of a degree,
    both in two's complement, without fault and with the reserved bits
    zero. *)
Definition encode_frame (tc internal : Z) : Z :=
  Z.lor (Z.shiftl (tc mod 2 ^ 14) 18) (Z.shiftl (internal mod 2 ^ 12) 4).

End Spec.

(** ** The driver on the bus

    The chip-select pin, the SPI bus, the clock and the console as a state
    that every method threads: the level of the pin, the frames the bus
    delivers (by transfer number), the number of transfers done and the
    trace of everything done so far. *)

Module Device.

Inductive event : Type :=
| CsValue (level : bool)            (* self.cs.value(level) *)
| Sleep (seconds : Q)               (* time.sleep(seconds) *)
| SleepUs (us : Z)                  (* time.sleep_us(us) *)
| SpiReadinto (data : bytearray4)   (* self.spi.readinto(data), bytes read *)
| Print (p : MAX31855.printed).     (* print(p) *)

Record World : Type := mkWorld {
  cs_pin : bool;
  miso : nat -> bytearray4;
  transfers : nat;
  trace : list event
}.

Definition M (A : Type) : Type := World -> A * World.

Definition ret {A : Type} (a : A) : M A := fun w => (a, w).

Definition bind {A B : Type} (m : M A) (k : A -> M B) : M B :=
  fun w => let '(a, w') := m w in k a w'.

Notation "x <- m ;; k" := (bind m (fun x => k))
  (at level 61, m at next level, right associativity).
Notation "m ;; k" := (bind m (fun _ => k))
  (at level 61, right associativity).

Definition cs_value (level : bool) : M unit :=
  fun w => (tt, mkWorld level (miso w) (transfers w)
                  (trace w ++ [CsValue level])).

Definition sleep (seconds : Q) : M unit :=
  fun w => (tt, mkWorld (cs_pin w) (miso w) (transfers w)
                  (trace w ++ [Sleep seconds])).

Definition sleep_us (us : Z) : M unit :=
  fun w => (tt, mkWorld (cs_pin w) (miso w) (transfers w)
                  (trace w ++ [SleepUs us])).

(** [data = bytearray(4); self.spi.readinto(data)]: the next frame. *)
Definition spi_readinto : M bytearray4 :=
  fun w =>
    let data := miso w (transfers w) in
    (data, mkWorld (cs_pin w) (miso w) (S (transfers w))
             (trace w ++ [SpiReadinto data])).

Definition print (p : MAX31855.printed) : M unit :=
  fun w => (tt, mkWorld (cs_pin w) (miso w) (transfers w)
                  (trace w ++ [Print p])).

(** [__init__]. *)
Definition init : M unit :=
  cs_value true ;;
  sleep 0.1.

(** [read_raw], with its bus traffic. *)
Definition read_raw : M (option Z * option string) :=
  cs_value false ;;
  sleep_us 10 ;;
  data <- spi_readinto ;;
  cs_value true ;;
  ret (MAX31855.read_raw data).

Section WithFloat.

Variable impl : float_impl.
Variable format_2f : spec_float -> string.

Definition read_all : M MAX31855.Reading :=
  rr <- read_raw ;;
  ret (MAX31855.read_all_from impl rr).

Definition read_temp_c : M MAX31855.temp_result :=
  data <- read_all ;;
  if negb (MAX31855.connected data) then ret MAX31855.RFalse
  else if Py.truthy_str (MAX31855.fault data) then
    print (MAX31855.PrintStr
             ("MAX31855 Fault: " ++ Py.str_opt (MAX31855.fault data))) ;;
    ret MAX31855.RNone
  else
    ret (match MAX31855.tc_temp data with
         | Some t => MAX31855.RFloat t
         | None => MAX31855.RNone
         end).

Definition read_internal : M MAX31855.temp_result :=
  data <- read_all ;;
  print (MAX31855.PrintDict data) ;;
  if negb (MAX31855.connected data) then ret MAX31855.RFalse
  else
    ret (match MAX31855.internal_temp data with
         | Some t => MAX31855.RFloat t
         | None => MAX31855.RNone
         end).

Definition diagnose : M (MAX31855.outcome string) :=
  data <- read_all ;;
  ret (MAX31855.diagnose_from format_2f data).

(** A call of one of the five reading methods, and its result. *)
Inductive method : Type :=
| ReadRaw | ReadAll | ReadTempC | ReadInternal | Diagnose.

Inductive result : Type :=
| RawResult (r : option Z * option string)
| AllResult (r : MAX31855.Reading)
| TempResult (r : MAX31855.temp_result)
| TextResult (r : MAX31855.outcome string).

Definition call (m : method) : M result :=
  match m with
  | ReadRaw => r <- read_raw ;; ret (RawResult r)
  | ReadAll => r <- read_all ;; ret (AllResult r)
  | ReadTempC => r <- read_temp_c ;; ret (TempResult r)
  | ReadInternal => r <- read_internal ;; ret (TempResult r)
  | Diagnose => r <- diagnose ;; ret (TextResult r)
  end.

(** The methods of a list called one after the other. *)
Fixpoint calls (ms : list method) : M (list result) :=
  match ms with
  | [] => ret []
  | m :: ms' => r <- call m ;; rs <- calls ms' ;; ret (r :: rs)
  end.

(** What a method returns and prints when the bus delivers [data]. *)
Definition answer (m : method) (data : bytearray4) : result :=
  match m with
  | ReadRaw => RawResult (MAX31855.read_raw data)
  | ReadAll => AllResult (MAX31855.read_all impl data)
  | ReadTempC => TempResult (fst (MAX31855.read_temp_c impl data))
  | ReadInternal => TempResult (fst (MAX31855.read_internal impl data))
  | Diagnose => TextResult (MAX31855.diagnose impl format_2f data)
  end.

Definition prints (m : method) (data : bytearray4) : list MAX31855.printed :=
  match m with
  | ReadTempC =>
      map MAX31855.PrintStr (snd (MAX31855.read_temp_c impl data))
  | ReadInternal => snd (MAX31855.read_internal impl data)
  | _ => []
  end.

End WithFloat.

(** The bus traffic of one transaction that reads [data]. *)
Definition transaction (data : bytearray4) : list event :=
  [CsValue false; SleepUs 10; SpiReadinto data; CsValue true].

(** The access protocol of the chip: chip-select goes low only from high,
    a transfer happens only with chip-select low and after a delay of at
    least 10 microseconds, at most one transfer while chip-select is low,
    and chip-select goes high again only after the transfer (writing high
    when it is high already changes nothing).  So there is exactly one
    transfer for each time chip-select goes low. *)
Inductive phase : Type := Idle | Asserted | Settled | Transferred.

Definition step (p : phase) (e : event) : option phase :=
  match e with
  | CsValue true =>
      match p with
      | Idle => Some Idle
      | Transferred => Some Idle
      | _ => None
      end
  | CsValue false =>
      match p with Idle => Some Asserted | _ => None end
  | SleepUs us =>
      match p with
      | Asserted => Some (if 10 <=? us then Settled else Asserted)
      | _ => Some p
      end
  | Sleep _ => Some p
  | Print _ => Some p
  | SpiReadinto _ =>
      match p with Settled => Some Transferred | _ => None end
  end.

Fixpoint run (p : phase) (tr : list event) : option phase :=
  match tr with
  | [] => Some p
  | e :: tr' =>
      match step p e with
      | Some p' => run p' tr'
      | None => None
      end
  end.

(** The events of a trace on the pin, the clock and the bus: all but the
    prints. *)
Definition bus_events (tr : list event) : list event :=
  filter (fun e => match e with Print _ => false | _ => true end) tr.

(** The frames read in a trace, in order. *)
Fixpoint frames_read (tr : list event) : list bytearray4 :=
  match tr with
  | [] => []
  | SpiReadinto data :: tr' => data :: frames_read tr'
  | _ :: tr' => frames_read tr'
  end.

End Device.

(** A boolean check over the integers [lo], [lo + 1], ..., [lo + n - 1]. *)
Fixpoint range_forallb (f : Z -> bool) (lo : Z) (n : nat) : bool :=
  match n with
  | O => true
  | S n' => f lo && range_forallb f (lo + 1) n'
  end.

(** ** Integer and bit lemmas *)

Lemma range_forallb_spec (f : Z -> bool) (n : nat) :
  forall lo, range_forallb f lo n = true ->
  forall z, lo <= z < lo + Z.of_nat n -> f z = true.
Proof.
  induction n as [|n IH]; intros lo H z Hz.
  - simpl in Hz. lia.
  - simpl in H. apply andb_true_iff in H. destruct H as [H0 H1].
    destruct (Z.eq_dec z lo) as [->|Hne]; [exact H0|].
    apply (IH (lo + 1) H1). lia.
Qed.

Lemma truthy_land_pow2 (a k : Z) :
  0 <= k -> Py.truthy_int (Z.land a (2 ^ k)) = Z.testbit a k.
Proof.
  intros Hk. unfold Py.truthy_int.
  assert (E : Z.land a (2 ^ k) = if Z.testbit a k then 2 ^ k else 0).
  { apply Z.bits_inj'. intros n Hn.
    rewrite Z.land_spec, Z.pow2_bits_eqb by assumption.
    destruct (Z.eqb_spec k n) as [->|Hne].
    - rewrite andb_true_r. destruct (Z.testbit a n).
      + rewrite Z.pow2_bits_true by assumption. reflexivity.
      + rewrite Z.bits_0. reflexivity.
    - rewrite andb_false_r. destruct (Z.testbit a k).
      + rewrite Z.pow2_bits_false by assumption. reflexivity.
      + rewrite Z.bits_0. reflexivity. }
  rewrite E. destruct (Z.testbit a k).
  - assert (0 < 2 ^ k) by (apply Z.pow_pos_nonneg; lia).
    destruct (Z.eqb_spec (2 ^ k) 0); [lia|reflexivity].
  - reflexivity.
Qed.

Lemma land_shiftr_field (raw lo width : Z) :
  0 <= lo -> 0 <= width ->
  Z.land (Z.shiftr raw lo) (Z.ones width) = Spec.field raw lo width.
Proof.
  intros Hlo Hw. unfold Spec.field.
  rewrite Z.land_ones by assumption.
  rewrite Z.shiftr_div_pow2 by assumption. reflexivity.
Qed.

Lemma field_range (raw lo width : Z) :
  0 <= width -> 0 <= Spec.field raw lo width < 2 ^ width.
Proof.
  intros Hw. unfold Spec.field. apply Z.mod_pos_bound.
  apply Z.pow_pos_nonneg; lia.
Qed.

(** The top bit of a field decides in which half of its range it lies. *)
Lemma field_top_bit (raw lo width : Z) :
  0 <= lo -> 0 < width ->
  if Z.testbit raw (lo + width - 1)
  then 2 ^ (width - 1) <= Spec.field raw lo width
  else Spec.field raw lo width < 2 ^ (width - 1).
Proof.
  intros Hlo Hw.
  pose proof (field_range raw lo width ltac:(lia)) as Hr.
  assert (Hb : Z.testbit (Spec.field raw lo width) (width - 1)
               = Z.testbit raw (lo + width - 1)).
  { unfold Spec.field.
    rewrite Z.mod_pow2_bits_low by lia.
    rewrite Z.div_pow2_bits by lia.
    f_equal. lia. }
  rewrite <- Hb.
  set (v := Spec.field raw lo width) in *.
  assert (Hp : 2 ^ width = 2 * 2 ^ (width - 1)).
  { rewrite <- Z.pow_succ_r by lia. f_equal. lia. }
  assert (Hpos : 0 < 2 ^ (width - 1)) by (apply Z.pow_pos_nonneg; lia).
  destruct (Z.testbit v (width - 1)) eqn:Ht.
  - apply Z.testbit_true in Ht; [|lia].
    destruct (Z_lt_le_dec v (2 ^ (width - 1))) as [Hlt|Hge]; [|exact Hge].
    rewrite Z.div_small in Ht by lia. discriminate.
  - apply Z.testbit_false in Ht; [|lia].
    destruct (Z_lt_le_dec v (2 ^ (width - 1))) as [Hlt|Hge]; [exact Hlt|].
    assert (v / 2 ^ (width - 1) = 1).
    { symmetry. apply Z.div_unique with (r := v - 2 ^ (width - 1)); lia. }
    rewrite H in Ht. discriminate.
Qed.

Lemma tc_counts_range (raw : Z) : -8192 <= Spec.tc_counts raw < 8192.
Proof.
  unfold Spec.tc_counts.
  pose proof (field_range raw 18 14 ltac:(lia)) as Hr.
  pose proof (field_top_bit raw 18 14 ltac:(lia) ltac:(lia)) as Ht.
  change (18 + 14 - 1) with 31 in Ht.
  change (2 ^ (14 - 1)) with 8192 in Ht. change (2 ^ 14) with 16384 in Hr.
  destruct (Z.testbit raw 31); lia.
Qed.

Lemma internal_counts_range (raw : Z) : -2048 <= Spec.internal_counts raw < 2048.
Proof.
  unfold Spec.internal_counts.
  pose proof (field_range raw 4 11 ltac:(lia)) as Hr.
  change (2 ^ 11) with 2048 in Hr.
  destruct (Z.testbit raw 15); lia.
Qed.

(** The decoded counts are the two's-complement readings of bits 31-18
    (14 bits) and of bits 15-4 (12 bits). *)
Lemma tc_counts_twos_complement (raw : Z) :
  Spec.tc_counts raw = (raw / 2 ^ 18 + 2 ^ 13) mod 2 ^ 14 - 2 ^ 13.
Proof.
  unfold Spec.tc_counts.
  pose proof (field_range raw 18 14 ltac:(lia)) as Hr.
  pose proof (field_top_bit raw 18 14 ltac:(lia) ltac:(lia)) as Ht.
  change (18 + 14 - 1) with 31 in Ht. unfold Spec.field in *.
  change (2 ^ (14 - 1)) with 8192 in Ht. change (2 ^ 14) with 16384 in *.
  change (2 ^ 13) with 8192. set (q := raw / 2 ^ 18) in *.
  destruct (Z.testbit raw 31); Z.div_mod_to_equations; lia.
Qed.

Lemma internal_counts_twos_complement (raw : Z) :
  Spec.internal_counts raw = (raw / 2 ^ 4 + 2 ^ 11) mod 2 ^ 12 - 2 ^ 11.
Proof.
  unfold Spec.internal_counts.
  pose proof (field_top_bit raw 4 12 ltac:(lia) ltac:(lia)) as Ht.
  change (4 + 12 - 1) with 15 in Ht. unfold Spec.field in *.
  change (2 ^ (12 - 1)) with 2048 in Ht. change (2 ^ 12) with 4096 in *.
  change (2 ^ 11) with 2048. set (q := raw / 2 ^ 4) in *.
  destruct (Z.testbit raw 15); Z.div_mod_to_equations; lia.
Qed.

(** ** Floating-point lemmas

    An integer of at most 14 bits times [0.25] or [0.0625] is exact in both
    formats; this is checked on every such integer. *)

Lemma representsb_sound (f : spec_float) (q : Q) :
  Float.representsb f q = true -> Float.represents f q.
Proof.
  unfold Float.representsb, Float.represents.
  destruct (Float.value f) as [v|]; [|discriminate].
  apply Qeq_bool_iff.
Qed.

Lemma quarter_check (impl : float_impl) :
  range_forallb
    (fun n => Float.representsb
                (Float.int_mul impl n (MAX31855.f0_25 impl)) (n # 4))
    (-8192) (Z.to_nat 16384) = true.
Proof. destruct impl; vm_compute; reflexivity. Qed.

Lemma sixteenth_check (impl : float_impl) :
  range_forallb
    (fun n => Float.representsb
                (Float.int_mul impl n (MAX31855.f0_0625 impl)) (n # 16))
    (-2048) (Z.to_nat 4096) = true.
Proof. destruct impl; vm_compute; reflexivity. Qed.

Lemma int_mul_quarter_exact (impl : float_impl) (n : Z) :
  -8192 <= n < 8192 ->
  Float.represents (Float.int_mul impl n (MAX31855.f0_25 impl)) (n # 4).
Proof.
  intros Hn. apply representsb_sound.
  apply (range_forallb_spec _ _ _ (quarter_check impl)).
  rewrite Z2Nat.id; lia.
Qed.

Lemma int_mul_sixteenth_exact (impl : float_impl) (n : Z) :
  -2048 <= n < 2048 ->
  Float.represents (Float.int_mul impl n (MAX31855.f0_0625 impl)) (n # 16).
Proof.
  intros Hn. apply representsb_sound.
  apply (range_forallb_spec _ _ _ (sixteenth_check impl)).
  rewrite Z2Nat.id; lia.
Qed.

(** ** The driver in terms of bits *)

Import MAX31855.

Lemma get_fault_string_bits (raw_value : Z) :
  get_fault_string raw_value =
  match Spec.cause_names raw_value with
  | [] => if Z.testbit raw_value 16 then Some "Unknown Fault"%string else None
  | names => Some (String.concat " + " names)
  end.
Proof.
  unfold get_fault_string, Spec.cause_names, Spec.cause_table, Py.join.
  change FAULT_OPEN with (2 ^ 0). change FAULT_GND with (2 ^ 1).
  change FAULT_VCC with (2 ^ 2). change FAULT_GENERIC with (2 ^ 16).
  rewrite !truthy_land_pow2 by lia.
  cbn [filter fst snd map].
  destruct (Z.testbit raw_value 0), (Z.testbit raw_value 1),
    (Z.testbit raw_value 2); reflexivity.
Qed.

(** With the generic bit set [get_fault_string] returns a non-empty string. *)
Lemma get_fault_string_truthy (raw_value : Z) :
  Z.testbit raw_value 16 = true ->
  Py.truthy_str (get_fault_string raw_value) = true.
Proof.
  intros H16. rewrite get_fault_string_bits, H16.
  unfold Spec.cause_names, Spec.cause_table. cbn [filter fst snd map].
  destruct (Z.testbit raw_value 0), (Z.testbit raw_value 1),
    (Z.testbit raw_value 2); reflexivity.
Qed.

Lemma tc_raw_counts (raw_value : Z) :
  (let tc_raw := Z.land (Z.shiftr raw_value 18) 0x3FFF in
   if Py.truthy_int (Z.land raw_value 0x80000000)
   then tc_raw - 0x4000 else tc_raw) = Spec.tc_counts raw_value.
Proof.
  cbv zeta. unfold Spec.tc_counts.
  change 0x3FFF with (Z.ones 14). change 0x80000000 with (2 ^ 31).
  rewrite land_shiftr_field, truthy_land_pow2 by lia.
  destruct (Z.testbit raw_value 31); lia.
Qed.

Lemma internal_raw_counts (raw_value : Z) :
  (let internal_raw := Z.land (Z.shiftr raw_value 4) 0x7FF in
   if Py.truthy_int (Z.land raw_value 0x8000)
   then internal_raw - 0x800 else internal_raw) = Spec.internal_counts raw_value.
Proof.
  cbv zeta. unfold Spec.internal_counts.
  change 0x7FF with (Z.ones 11). change 0x8000 with (2 ^ 15).
  rewrite land_shiftr_field, truthy_land_pow2 by lia.
  destruct (Z.testbit raw_value 15); lia.
Qed.

(** [read_all] on a frame that [read_raw] accepted, field by field. *)
Lemma read_all_from_connected (impl : float_impl) (raw_value : Z)
    (error : option string) :
  read_all_from impl (Some raw_value, error) =
  {| tc_temp :=
       if Z.testbit raw_value 16 then None
       else Some (Float.int_mul impl (Spec.tc_counts raw_value) (f0_25 impl));
     internal_temp :=
       Some (Float.int_mul impl (Spec.internal_counts raw_value) (f0_0625 impl));
     fault := if Z.testbit raw_value 16 then get_fault_string raw_value else None;
     raw := Some raw_value;
     connected := true |}.
Proof.
  unfold read_all_from.
  pose proof (tc_raw_counts raw_value) as Htc.
  pose proof (internal_raw_counts raw_value) as Hin.
  cbv zeta in Htc, Hin |- *. rewrite Hin.
  change FAULT_GENERIC with (2 ^ 16). rewrite truthy_land_pow2 by lia.
  destruct (Z.testbit raw_value 16) eqn:H16.
  - unfold set_fault at 1 2. cbn [fault].
    rewrite (get_fault_string_truthy _ H16). reflexivity.
  - cbn [fault Py.truthy_str negb]. rewrite Htc. reflexivity.
Qed.

(** ** Bytes and the big-endian word *)

Lemma byte_val_range (b : byte) : 0 <= byte_val b < 256.
Proof.
  unfold byte_val. pose proof (Byte.to_N_bounded b). lia.
Qed.

Lemma byte_of_Z_val (b : byte) (z : Z) :
  z mod 256 = byte_val b -> Spec.byte_of_Z z = b.
Proof.
  intros H. unfold Spec.byte_of_Z. rewrite H. unfold byte_val.
  rewrite N2Z.id, Byte.of_to_N. reflexivity.
Qed.

Lemma bytes4_eqb_eq (x y : bytearray4) : bytes4_eqb x y = true <-> x = y.
Proof.
  destruct x as [[[x0 x1] x2] x3], y as [[[y0 y1] y2] y3].
  unfold bytes4_eqb. rewrite !andb_true_iff. split.
  - intros [[[H0 H1] H2] H3].
    apply Byte.byte_dec_bl in H0, H1, H2, H3. congruence.
  - intros H. injection H as -> -> -> ->.
    repeat split; apply Byte.byte_dec_lb; reflexivity.
Qed.

Lemma lor_shiftl_add (hi lo k : Z) :
  0 <= k -> 0 <= lo < 2 ^ k -> Z.lor (Z.shiftl hi k) lo = hi * 2 ^ k + lo.
Proof.
  intros Hk Hlo.
  assert (Hd : Z.land (Z.shiftl hi k) lo = 0).
  { apply Z.bits_inj'. intros n Hn.
    rewrite Z.land_spec, Z.bits_0.
    destruct (Z_lt_le_dec n k) as [Hlt|Hge].
    - rewrite Z.shiftl_spec_low by assumption. reflexivity.
    - rewrite <- (Z.mod_small lo (2 ^ k)) by assumption.
      rewrite Z.mod_pow2_bits_high by lia. apply andb_false_r. }
  rewrite <- Z.lxor_lor by assumption.
  rewrite <- Z.add_nocarry_lxor by assumption.
  rewrite Z.shiftl_mul_pow2 by assumption. reflexivity.
Qed.

(** The word read is the base-256 number of the four bytes. *)
Lemma struct_unpack_BE_I_sum (b0 b1 b2 b3 : byte) :
  struct_unpack_BE_I (b0, b1, b2, b3) =
  byte_val b0 * 2 ^ 24 + byte_val b1 * 2 ^ 16 + byte_val b2 * 2 ^ 8 + byte_val b3.
Proof.
  pose proof (byte_val_range b0). pose proof (byte_val_range b1).
  pose proof (byte_val_range b2). pose proof (byte_val_range b3).
  unfold struct_unpack_BE_I.
  rewrite (lor_shiftl_add (byte_val b2) (byte_val b3) 8) by lia.
  rewrite (lor_shiftl_add (byte_val b1) _ 16) by lia.
  rewrite (lor_shiftl_add (byte_val b0) _ 24) by lia.
  ring.
Qed.

Lemma struct_unpack_BE_I_range (data : bytearray4) :
  0 <= struct_unpack_BE_I data < 2 ^ 32.
Proof.
  destruct data as [[[b0 b1] b2] b3]. rewrite struct_unpack_BE_I_sum.
  pose proof (byte_val_range b0). pose proof (byte_val_range b1).
  pose proof (byte_val_range b2). pose proof (byte_val_range b3).
  lia.
Qed.

Lemma be_bytes_unpack (data : bytearray4) :
  Spec.be_bytes (struct_unpack_BE_I data) = data.
Proof.
  destruct data as [[[b0 b1] b2] b3]. rewrite struct_unpack_BE_I_sum.
  pose proof (byte_val_range b0). pose proof (byte_val_range b1).
  pose proof (byte_val_range b2). pose proof (byte_val_range b3).
  unfold Spec.be_bytes.
  change (2 ^ 24) with 16777216. change (2 ^ 16) with 65536.
  change (2 ^ 8) with 256.
  set (w := byte_val b0 * 16777216 + byte_val b1 * 65536
            + byte_val b2 * 256 + byte_val b3).
  rewrite (byte_of_Z_val b0), (byte_of_Z_val b1), (byte_of_Z_val b2),
    (byte_of_Z_val b3); [reflexivity | | | |];
    subst w; Z.div_mod_to_equations; lia.
Qed.

Lemma struct_unpack_BE_I_inj (x y : bytearray4) :
  struct_unpack_BE_I x = struct_unpack_BE_I y -> x = y.
Proof.
  intros H. rewrite <- (be_bytes_unpack x), <- (be_bytes_unpack y), H.
  reflexivity.
Qed.

(** ** read_raw *)

Lemma read_raw_cases (data : bytearray4) :
  (data = all_zero /\
   read_raw data = (None, Some "No SPI response (disconnected)"%string)) \/
  (data = all_high /\
   read_raw data = (None, Some "SPI bus error (all high)"%string)) \/
  (data <> all_zero /\ data <> all_high /\
   read_raw data = (Some (struct_unpack_BE_I data), None)).
Proof.
  unfold read_raw.
  destruct (bytes4_eqb data all_zero) eqn:E0.
  - left. apply bytes4_eqb_eq in E0. auto.
  - destruct (bytes4_eqb data all_high) eqn:E1.
    + right; left. apply bytes4_eqb_eq in E1. auto.
    + right; right. repeat split; try reflexivity.
      * intros H. apply bytes4_eqb_eq in H. congruence.
      * intros H. apply bytes4_eqb_eq in H. congruence.
Qed.

Lemma all_zero_high_distinct : all_zero <> all_high.
Proof. discriminate. Qed.

Ltac split_conj := repeat match goal with |- _ /\ _ => split end.

Ltac classify_done :=
  first [ assumption | reflexivity | discriminate | tauto
        | exfalso; subst; tauto ].

(** C1. For every 4-byte frame, [read_raw] returns the error
    "No SPI response (disconnected)" exactly when the frame is all zeros
    (the word 0), the error "SPI bus error (all high)" exactly when it is
    all ones (the word 0xFFFFFFFF), and for every other frame success with
    the frame as a big-endian unsigned 32-bit integer: the base-256 number
    of the four bytes, below 2^32, whose four bytes are the frame again. *)
Theorem read_raw_classification (data : bytearray4) :
  (read_raw data = (None, Some "No SPI response (disconnected)"%string)
   <-> data = all_zero) /\
  (read_raw data = (None, Some "SPI bus error (all high)"%string)
   <-> data = all_high) /\
  (read_raw data = (Some (struct_unpack_BE_I data), None)
   <-> data <> all_zero /\ data <> all_high) /\
  (fst (read_raw data) = None <-> data = all_zero \/ data = all_high) /\
  (data = all_zero <-> struct_unpack_BE_I data = 0) /\
  (data = all_high <-> struct_unpack_BE_I data = 0xFFFFFFFF) /\
  (let '(b0, b1, b2, b3) := data in
   struct_unpack_BE_I data =
   byte_val b0 * 2 ^ 24 + byte_val b1 * 2 ^ 16 + byte_val b2 * 2 ^ 8
   + byte_val b3) /\
  0 <= struct_unpack_BE_I data < 2 ^ 32 /\
  Spec.be_bytes (struct_unpack_BE_I data) = data.
Proof.
  pose proof all_zero_high_distinct as Hd.
  assert (Hd' : all_high <> all_zero) by discriminate.
  split_conj.
  - destruct (read_raw_cases data) as [[E R]|[[E R]|[N0 [N1 R]]]];
      rewrite R; split; intros H; classify_done.
  - destruct (read_raw_cases data) as [[E R]|[[E R]|[N0 [N1 R]]]];
      rewrite R; split; intros H; classify_done.
  - destruct (read_raw_cases data) as [[E R]|[[E R]|[N0 [N1 R]]]];
      rewrite R; split; intros H; classify_done.
  - destruct (read_raw_cases data) as [[E R]|[[E R]|[N0 [N1 R]]]];
      rewrite R; cbn [fst]; split; intros H; classify_done.
  - split; intros H.
    + subst data. reflexivity.
    + apply struct_unpack_BE_I_inj. rewrite H. reflexivity.
  - split; intros H.
    + subst data. reflexivity.
    + apply struct_unpack_BE_I_inj. rewrite H. reflexivity.
  - destruct data as [[[b0 b1] b2] b3]. apply struct_unpack_BE_I_sum.
  - apply struct_unpack_BE_I_range.
  - apply struct_unpack_BE_I_range.
  - apply be_bytes_unpack.
Qed.

(** ** read_all on an accepted frame *)

Lemma read_all_accepted (impl : float_impl) (data : bytearray4) (raw_value : Z) :
  read_raw data = (Some raw_value, None) ->
  read_all impl data = read_all_from impl (Some raw_value, None).
Proof. intros H. unfold read_all. rewrite H. reflexivity. Qed.

Lemma cause_names_bits (raw_value : Z) :
  Spec.cause_names raw_value =
  (if Z.testbit raw_value 0 then ["Open Circuit"%string] else []) ++
  (if Z.testbit raw_value 1 then ["Short to GND"%string] else []) ++
  (if Z.testbit raw_value 2 then ["Short to VCC"%string] else []).
Proof.
  unfold Spec.cause_names, Spec.cause_table. cbn [filter fst snd map].
  destruct (Z.testbit raw_value 0), (Z.testbit raw_value 1),
    (Z.testbit raw_value 2); reflexivity.
Qed.

Lemma cause_names_exact (raw_value bit : Z) (name : string) :
  In (bit, name) Spec.cause_table ->
  (In name (Spec.cause_names raw_value) <-> Z.testbit raw_value bit = true).
Proof.
  intros Hin. rewrite cause_names_bits.
  unfold Spec.cause_table in Hin. cbn [In] in Hin.
  destruct Hin as [E|[E|[E|[]]]]; injection E as <- <-;
    destruct (Z.testbit raw_value 0), (Z.testbit raw_value 1),
      (Z.testbit raw_value 2); cbn [app In];
    (split; [intros H | intros H];
     first [ reflexivity | discriminate | tauto
           | exfalso; repeat (destruct H as [H|H]; try discriminate H);
             exact H ]).
Qed.

(** C2. For every frame with bit 16 clear, whatever bits 0-2 are, the
    decoding in [read_all] leaves [fault] at [None] and sets [tc_temp] to
    the 14-bit field of bits 31-18, less 0x4000 when bit 31 is set, times
    0.25; that product is exact.  This is what [read_all] returns for every
    buffer [read_raw] unpacks to such a frame. *)
Theorem tc_temp_when_generic_bit_clear (impl : float_impl) (raw_value : Z) :
  Z.testbit raw_value 16 = false ->
  let r := read_all_from impl (Some raw_value, None) in
  fault r = None /\
  tc_temp r =
    Some (Float.int_mul impl (Spec.tc_counts raw_value) (f0_25 impl)) /\
  Float.represents
    (Float.int_mul impl (Spec.tc_counts raw_value) (f0_25 impl))
    (Spec.tc_counts raw_value # 4) /\
  (forall data, read_raw data = (Some raw_value, None) ->
                read_all impl data = r).
Proof.
  intros H16 r. subst r. rewrite read_all_from_connected, H16.
  cbn [fault tc_temp]. split_conj; try reflexivity.
  - apply int_mul_quarter_exact, tc_counts_range.
  - intros data Hd. rewrite (read_all_accepted _ _ _ Hd).
    rewrite read_all_from_connected, H16. reflexivity.
Qed.

Lemma tc_temp_when_generic_bit_clear_witness :
  Z.testbit 0x01900007 16 = false /\
  fault (read_all_from FloatDouble (Some 0x01900007, None)) = None /\
  Float.represents
    (Float.int_mul FloatDouble (Spec.tc_counts 0x01900007) (f0_25 FloatDouble))
    (Spec.tc_counts 0x01900007 # 4).
Proof.
  split; [reflexivity|].
  pose proof (tc_temp_when_generic_bit_clear FloatDouble 0x01900007 eq_refl)
    as [Hf [_ [Hr _]]].
  split; [exact Hf | exact Hr].
Defined.

(** C3, as the code has it. For every value with bit 16 clear,
    [get_fault_string] returns [None] exactly when bits 0-2 are all clear:
    it tests the three cause bits first and names those that are set.  The
    gate on bit 16 is in [read_all]: on every frame that [read_raw] accepts
    and whose bit 16 is clear, the decoding leaves [fault] at [None]
    whatever bits 0-2 are.  (The all-zero buffer has bit 16 clear too, but
    [read_raw] rejects it and [fault] is then the transport message.) *)
Theorem get_fault_string_generic_bit_clear (raw_value : Z) :
  Z.testbit raw_value 16 = false ->
  (get_fault_string raw_value = None <->
   Z.testbit raw_value 0 = false /\ Z.testbit raw_value 1 = false /\
   Z.testbit raw_value 2 = false) /\
  (Spec.cause_names raw_value <> [] ->
   get_fault_string raw_value =
   Some (String.concat " + " (Spec.cause_names raw_value))) /\
  (forall impl, fault (read_all_from impl (Some raw_value, None)) = None) /\
  (forall impl data,
     read_raw data = (Some raw_value, None) ->
     fault (read_all impl data) = None).
Proof.
  intros H16. split_conj.
  - rewrite get_fault_string_bits, cause_names_bits, H16.
    destruct (Z.testbit raw_value 0), (Z.testbit raw_value 1),
      (Z.testbit raw_value 2); cbn [app]; split;
      first [ discriminate | tauto | intros [? [? ?]]; discriminate ].
  - intros Hne. rewrite get_fault_string_bits.
    destruct (Spec.cause_names raw_value); [contradiction|reflexivity].
  - intros impl. rewrite read_all_from_connected, H16. reflexivity.
  - intros impl data Hd. rewrite (read_all_accepted _ _ _ Hd).
    rewrite read_all_from_connected, H16. reflexivity.
Qed.

Lemma get_fault_string_generic_bit_clear_witness :
  Z.testbit 0x5 16 = false /\
  get_fault_string 0x5 = Some "Open Circuit + Short to VCC"%string /\
  fault (read_all_from FloatSingle (Some 0x5, None)) = None /\
  fault (read_all FloatSingle (Byte.x00, Byte.x00, Byte.x00, Byte.x05))
    = None.
Proof.
  split; [reflexivity|].
  pose proof (get_fault_string_generic_bit_clear 0x5 eq_refl)
    as [_ [Hs [Hf Hb]]].
  split; [apply Hs; discriminate|].
  split; [apply Hf|].
  apply Hb. reflexivity.
Defined.

(** C3 as stated fails: the value 1 has bit 16 clear and bit 0 set, and
    [get_fault_string] returns "Open Circuit" for it. *)
Lemma get_fault_string_not_gated :
  Z.testbit 0x1 16 = false /\
  get_fault_string 0x1 = Some "Open Circuit"%string /\
  ~ (forall raw_value, 0 <= raw_value < 2 ^ 32 ->
       Z.testbit raw_value 16 = false -> get_fault_string raw_value = None).
Proof.
  split; [reflexivity|]. split; [reflexivity|].
  intros H. specialize (H 0x1 ltac:(lia) eq_refl). discriminate H.
Qed.

(** C4. For every frame with bit 16 set and at least one of bits 0-2 set,
    the decoding in [read_all] sets [fault] to the names of exactly the
    causes whose bit is set among open circuit (bit 0), short to GND
    (bit 1) and short to VCC (bit 2), joined with " + " in bit order, and
    leaves [tc_temp] at [None]. *)
Theorem fault_names_set_causes (impl : float_impl) (raw_value : Z) :
  Z.testbit raw_value 16 = true ->
  Z.testbit raw_value 0 || Z.testbit raw_value 1 || Z.testbit raw_value 2
    = true ->
  let r := read_all_from impl (Some raw_value, None) in
  fault r = Some (String.concat " + " (Spec.cause_names raw_value)) /\
  Spec.cause_names raw_value =
    (if Z.testbit raw_value 0 then ["Open Circuit"%string] else []) ++
    (if Z.testbit raw_value 1 then ["Short to GND"%string] else []) ++
    (if Z.testbit raw_value 2 then ["Short to VCC"%string] else []) /\
  (forall bit name, In (bit, name) Spec.cause_table ->
     (In name (Spec.cause_names raw_value) <-> Z.testbit raw_value bit = true)) /\
  tc_temp r = None /\
  (forall data, read_raw data = (Some raw_value, None) ->
                read_all impl data = r).
Proof.
  intros H16 Hany r. subst r. rewrite read_all_from_connected, H16.
  cbn [fault tc_temp]. split_conj.
  - rewrite get_fault_string_bits, cause_names_bits.
    destruct (Z.testbit raw_value 0), (Z.testbit raw_value 1),
      (Z.testbit raw_value 2); try reflexivity; discriminate Hany.
  - apply cause_names_bits.
  - intros bit name. apply cause_names_exact.
  - reflexivity.
  - intros data Hd. rewrite (read_all_accepted _ _ _ Hd).
    rewrite read_all_from_connected, H16. reflexivity.
Qed.

Lemma fault_names_set_causes_witness :
  Z.testbit 0x00010006 16 = true /\
  Z.testbit 0x00010006 0 || Z.testbit 0x00010006 1 || Z.testbit 0x00010006 2
    = true /\
  fault (read_all_from FloatDouble (Some 0x00010006, None)) =
    Some "Short to GND + Short to VCC"%string /\
  tc_temp (read_all_from FloatDouble (Some 0x00010006, None)) = None.
Proof.
  split; [reflexivity|]. split; [reflexivity|].
  pose proof (fault_names_set_causes FloatDouble 0x00010006 eq_refl eq_refl)
    as [Hf [_ [_ [Ht _]]]].
  split; [exact Hf | exact Ht].
Defined.

(** C5. For every frame with bit 16 set and bits 0, 1 and 2 all clear, the
    decoding in [read_all] sets [fault] to "Unknown Fault" and leaves
    [tc_temp] at [None]. *)
Theorem unknown_fault_without_cause (impl : float_impl) (raw_value : Z) :
  Z.testbit raw_value 16 = true ->
  Z.testbit raw_value 0 = false ->
  Z.testbit raw_value 1 = false ->
  Z.testbit raw_value 2 = false ->
  let r := read_all_from impl (Some raw_value, None) in
  fault r = Some "Unknown Fault"%string /\
  tc_temp r = None /\
  (forall data, read_raw data = (Some raw_value, None) ->
                read_all impl data = r).
Proof.
  intros H16 H0 H1 H2 r. subst r. rewrite read_all_from_connected, H16.
  cbn [fault tc_temp]. split_conj.
  - rewrite get_fault_string_bits, cause_names_bits, H0, H1, H2, H16.
    reflexivity.
  - reflexivity.
  - intros data Hd. rewrite (read_all_accepted _ _ _ Hd).
    rewrite read_all_from_connected, H16. reflexivity.
Qed.

Lemma unknown_fault_without_cause_witness :
  Z.testbit 0x01910000 16 = true /\
  fault (read_all_from FloatSingle (Some 0x01910000, None)) =
    Some "Unknown Fault"%string /\
  tc_temp (read_all_from FloatSingle (Some 0x01910000, None)) = None.
Proof.
  split; [reflexivity|].
  pose proof (unknown_fault_without_cause FloatSingle 0x01910000
                eq_refl eq_refl eq_refl eq_refl) as [Hf [Ht _]].
  split; [exact Hf | exact Ht].
Defined.

(** ** Failed and successful transactions *)

Lemma read_all_connected_iff (impl : float_impl) (data : bytearray4) :
  connected (read_all impl data) = true <->
  read_raw data = (Some (struct_unpack_BE_I data), None).
Proof.
  unfold read_all.
  destruct (read_raw_cases data) as [[E R]|[[E R]|[N0 [N1 R]]]]; rewrite R.
  - cbn. split; discriminate.
  - cbn. split; discriminate.
  - rewrite read_all_from_connected. cbn [connected]. tauto.
Qed.



(** C7. The frame 0xFD800000 holds the 14-bit two's-complement code 0x3F60
    of -160 in bits 31-18 and zeros below; the buffer FD 80 00 00 decodes
    to [tc_temp] = -40.0, [internal_temp] = 0.0 and no fault. *)
Theorem negative_forty_round_trip (impl : float_impl) :
  Z.shiftl 0x3F60 18 = 0xFD800000 /\
  0x3F60 - 0x4000 = -160 /\
  read_all impl (Byte.xfd, Byte.x80, Byte.x00, Byte.x00) =
    {| tc_temp := Some (Float.of_int impl (-40));
       internal_temp := Some (S754_zero false);
       fault := None;
       raw := Some 0xFD800000;
       connected := true |} /\
  read_all_from impl (Some 0xFD800000, None) =
    read_all impl (Byte.xfd, Byte.x80, Byte.x00, Byte.x00) /\
  Float.represents (Float.of_int impl (-40)) (-40.0)%Q /\
  Float.represents (S754_zero false) 0.0%Q.
Proof.
  destruct impl; vm_compute; split_conj; reflexivity.
Qed.

Lemma fault_string_not_transport (raw_value : Z) :
  get_fault_string raw_value <> Some "No SPI response (disconnected)"%string /\
  get_fault_string raw_value <> Some "SPI bus error (all high)"%string.
Proof.
  rewrite get_fault_string_bits, cause_names_bits.
  destruct (Z.testbit raw_value 0), (Z.testbit raw_value 1),
    (Z.testbit raw_value 2), (Z.testbit raw_value 16);
    cbn [app String.concat]; split; discriminate.
Qed.

(** C8. For every call of [read_all] in which the transaction fails (the
    buffer is all zeros or all ones), the reading has [connected] = [False],
    [raw], [tc_temp] and [internal_temp] all [None], and [fault] is the
    error message of [read_raw], which is no string [get_fault_string] can
    return. *)
Theorem read_all_transport_failure (impl : float_impl) (data : bytearray4) :
  data = all_zero \/ data = all_high ->
  let r := read_all impl data in
  connected r = false /\
  raw r = None /\
  tc_temp r = None /\
  internal_temp r = None /\
  fault r = snd (read_raw data) /\
  (data = all_zero ->
   fault r = Some "No SPI response (disconnected)"%string) /\
  (data = all_high -> fault r = Some "SPI bus error (all high)"%string) /\
  (forall raw_value, get_fault_string raw_value <> fault r).
Proof.
  intros [-> | ->] r; subst r; cbn; split_conj; try reflexivity;
    try discriminate; intros raw_value;
    apply (fault_string_not_transport raw_value).
Qed.

Lemma read_all_transport_failure_witness :
  (all_high = all_zero \/ all_high = all_high) /\
  connected (read_all FloatDouble all_high) = false /\
  fault (read_all FloatDouble all_high) =
    Some "SPI bus error (all high)"%string.
Proof.
  split; [right; reflexivity|].
  pose proof (read_all_transport_failure FloatDouble all_high
                (or_intror eq_refl)) as [Hc [_ [_ [_ [_ [_ [Hf _]]]]]]].
  split; [exact Hc | exact (Hf eq_refl)].
Defined.

(** ** Sample frames *)

(** 25.0 degrees on the thermocouple, 1.5625 degrees internal, no fault. *)
Example read_all_plain_frame :
  read_all FloatDouble (Byte.x01, Byte.x90, Byte.x01, Byte.x90) =
  {| tc_temp := Some (S754_finite false 7036874417766400 (-48));
     internal_temp := Some (S754_finite false 7036874417766400 (-52));
     fault := None;
     raw := Some 0x01900190;
     connected := true |}.
Proof. vm_compute. reflexivity. Qed.

(** The frame 0x0191C000 has bit 16 set and no cause bit: unknown fault,
    no thermocouple temperature, internal temperature -64.0. *)
Example read_all_generic_fault_frame :
  read_all FloatDouble (Byte.x01, Byte.x91, Byte.xc0, Byte.x00) =
  {| tc_temp := None;
     internal_temp := Some (Float.of_int FloatDouble (-64));
     fault := Some "Unknown Fault"%string;
     raw := Some 0x0191C000;
     connected := true |}.
Proof. vm_compute. reflexivity. Qed.

(** All three causes at once. *)
Example get_fault_string_all_causes :
  get_fault_string 0x00010007 =
  Some "Open Circuit + Short to GND + Short to VCC"%string.
Proof. reflexivity. Qed.

Example read_temp_c_samples :
  read_temp_c FloatSingle all_zero = (RFalse, []) /\
  read_temp_c FloatSingle (Byte.x00, Byte.x01, Byte.x00, Byte.x01) =
    (RNone, ["MAX31855 Fault: Open Circuit"%string]) /\
  read_temp_c FloatSingle (Byte.xfd, Byte.x80, Byte.x00, Byte.x00) =
    (RFloat (Float.of_int FloatSingle (-40)), []).
Proof. vm_compute. split_conj; reflexivity. Qed.

(** ** read_temp_c *)

(** C9. [read_temp_c] returns one value with three meanings: for every
    transaction it is [False] exactly when the transport failed
    ([connected] is [False]), [None] exactly when connected with a fault
    present, and otherwise the decoded thermocouple temperature, a float. *)
Theorem read_temp_c_three_way (impl : float_impl) (data : bytearray4) :
  let r := read_all impl data in
  let v := fst (read_temp_c impl data) in
  (v = RFalse <-> connected r = false) /\
  (connected r = false <-> data = all_zero \/ data = all_high) /\
  (v = RNone <-> connected r = true /\ fault r <> None) /\
  (connected r = true ->
   (fault r <> None <-> Z.testbit (struct_unpack_BE_I data) 16 = true)) /\
  (connected r = true -> fault r = None ->
   v = RFloat (Float.int_mul impl (Spec.tc_counts (struct_unpack_BE_I data))
                 (f0_25 impl)) /\
   tc_temp r = Some (Float.int_mul impl
                       (Spec.tc_counts (struct_unpack_BE_I data))
                       (f0_25 impl))).
Proof.
  intros r v. subst r v. unfold read_temp_c, read_all.
  assert (Hd' : all_high <> all_zero) by discriminate.
  destruct (read_raw_cases data) as [[E R]|[[E R]|[N0 [N1 R]]]]; rewrite R.
  - cbn. split_conj; try (split; intros H); try intros H;
      try classify_done.
    destruct H; discriminate.
  - cbn. split_conj; try (split; intros H); try intros H;
      try classify_done.
    destruct H; discriminate.
  - rewrite read_all_from_connected. cbn [connected fault tc_temp negb].
    destruct (Z.testbit (struct_unpack_BE_I data) 16) eqn:H16.
    + pose proof (get_fault_string_truthy _ H16) as Ht. rewrite Ht.
      assert (Hn : get_fault_string (struct_unpack_BE_I data) <> None).
      { intros Hnone. rewrite Hnone in Ht. discriminate Ht. }
      cbn [fst]. split_conj; try (split; intros H); try intros H;
        classify_done.
    + cbn [Py.truthy_str fst]. split_conj; try (split; intros H);
        try intros H; try classify_done.
      split; [intros Hn; contradiction Hn; reflexivity | discriminate].
Qed.

(** X10. What [read_temp_c] prints: whenever it returns [None] it prints
    exactly one line, "MAX31855 Fault: " followed by the fault string of
    the frame, which is not empty; whenever it returns [False] or a
    temperature it prints nothing. *)
Theorem read_temp_c_prints (impl : float_impl) (data : bytearray4) :
  (fst (read_temp_c impl data) = RNone ->
   exists s,
     get_fault_string (struct_unpack_BE_I data) = Some s /\
     fault (read_all impl data) = Some s /\
     s <> EmptyString /\
     snd (read_temp_c impl data) = [("MAX31855 Fault: " ++ s)%string]) /\
  (fst (read_temp_c impl data) <> RNone ->
   snd (read_temp_c impl data) = []).
Proof.
  unfold read_temp_c, read_all.
  destruct (read_raw_cases data) as [[E R]|[[E R]|[N0 [N1 R]]]]; rewrite R.
  - cbn. split; [discriminate | reflexivity].
  - cbn. split; [discriminate | reflexivity].
  - rewrite read_all_from_connected. cbn [connected fault tc_temp negb].
    destruct (Z.testbit (struct_unpack_BE_I data) 16) eqn:H16.
    + pose proof (get_fault_string_truthy _ H16) as Ht. rewrite Ht.
      cbn [fst snd].
      destruct (get_fault_string (struct_unpack_BE_I data)) as [s|];
        [|discriminate Ht].
      split.
      * intros _. exists s. split_conj; try reflexivity.
        intros ->. discriminate Ht.
      * intros H. contradiction H. reflexivity.
    + cbn [Py.truthy_str fst snd]. split; [discriminate | reflexivity].
Qed.

(** ** Range and resolution *)

Lemma represents_Qeq (t : spec_float) (q q' : Q) :
  (q == q')%Q -> Float.represents t q -> Float.represents t q'.
Proof.
  unfold Float.represents. destruct (Float.value t) as [v|]; [|tauto].
  intros E H. rewrite H. exact E.
Qed.

Lemma represents_within (t : spec_float) (q lo hi : Q) :
  Float.represents t q -> (lo <= q <= hi)%Q -> Float.within t lo hi.
Proof.
  unfold Float.represents, Float.within.
  destruct (Float.value t) as [v|]; [|tauto].
  intros Hv Hb. rewrite Hv. exact Hb.
Qed.

(** C10. For every frame on which the transaction succeeds,
    [internal_temp] is an integer multiple of 0.0625 in [-128, 127.9375],
    and [tc_temp], when present, is an integer multiple of 0.25 in
    [-2048, 2047.75]. *)
Theorem decoded_temperatures_quantized (impl : float_impl) (data : bytearray4) :
  connected (read_all impl data) = true ->
  (exists t k,
     internal_temp (read_all impl data) = Some t /\
     Float.represents t (inject_Z k * 0.0625)%Q /\
     Float.within t (-128.0)%Q 127.9375%Q) /\
  (forall t, tc_temp (read_all impl data) = Some t ->
     exists k,
       Float.represents t (inject_Z k * 0.25)%Q /\
       Float.within t (-2048.0)%Q 2047.75%Q).
Proof.
  intros Hc. apply read_all_connected_iff in Hc.
  rewrite (read_all_accepted _ _ _ Hc), read_all_from_connected.
  cbn [internal_temp tc_temp].
  set (w := struct_unpack_BE_I data).
  pose proof (internal_counts_range w) as Hi.
  pose proof (tc_counts_range w) as Ht.
  pose proof (int_mul_sixteenth_exact impl _ Hi) as Ei.
  pose proof (int_mul_quarter_exact impl _ Ht) as Et.
  split.
  - exists (Float.int_mul impl (Spec.internal_counts w) (f0_0625 impl)).
    exists (Spec.internal_counts w). split; [reflexivity|]. split.
    + apply (represents_Qeq _ (Spec.internal_counts w # 16)); [|exact Ei].
      unfold Qeq, Qmult, inject_Z. cbn. lia.
    + apply (represents_within _ _ _ _ Ei).
      unfold Qle. cbn. lia.
  - intros t Htc. destruct (Z.testbit w 16); [discriminate Htc|].
    injection Htc as <-. exists (Spec.tc_counts w). split.
    + apply (represents_Qeq _ (Spec.tc_counts w # 4)); [|exact Et].
      unfold Qeq, Qmult, inject_Z. cbn. lia.
    + apply (represents_within _ _ _ _ Et).
      unfold Qle. cbn. lia.
Qed.

Lemma decoded_temperatures_quantized_witness :
  connected (read_all FloatSingle (Byte.x01, Byte.x90, Byte.x01, Byte.x90))
    = true /\
  (exists t k,
     internal_temp (read_all FloatSingle (Byte.x01, Byte.x90, Byte.x01, Byte.x90))
       = Some t /\
     Float.represents t (inject_Z k * 0.0625)%Q /\
     Float.within t (-128.0)%Q 127.9375%Q) /\
  (forall t,
     tc_temp (read_all FloatSingle (Byte.x01, Byte.x90, Byte.x01, Byte.x90))
       = Some t ->
     exists k,
       Float.represents t (inject_Z k * 0.25)%Q /\
       Float.within t (-2048.0)%Q 2047.75%Q).
Proof.
  split; [reflexivity|].
  apply (decoded_temperatures_quantized FloatSingle
           (Byte.x01, Byte.x90, Byte.x01, Byte.x90)).
  reflexivity.
Defined.

(** ** Further properties of the decoding *)

(** [get_fault_string] reads bits 0, 1, 2 and 16 only. *)
Lemma get_fault_string_ext (a b : Z) :
  Z.testbit a 0 = Z.testbit b 0 ->
  Z.testbit a 1 = Z.testbit b 1 ->
  Z.testbit a 2 = Z.testbit b 2 ->
  Z.testbit a 16 = Z.testbit b 16 ->
  get_fault_string a = get_fault_string b.
Proof.
  intros H0 H1 H2 H16.
  rewrite !get_fault_string_bits, !cause_names_bits, H0, H1, H2, H16.
  reflexivity.
Qed.

(** X1. The string [get_fault_string] returns tells exactly which cause
    bits are set: two values get the same result exactly when they agree on
    bits 0, 1 and 2 and, if none of these is set, on bit 16. *)
Theorem get_fault_string_decides_bits (a b : Z) :
  get_fault_string a = get_fault_string b <->
  Z.testbit a 0 = Z.testbit b 0 /\
  Z.testbit a 1 = Z.testbit b 1 /\
  Z.testbit a 2 = Z.testbit b 2 /\
  (Z.testbit a 0 || Z.testbit a 1 || Z.testbit a 2 = false ->
   Z.testbit a 16 = Z.testbit b 16).
Proof.
  rewrite !get_fault_string_bits, !cause_names_bits.
  destruct (Z.testbit a 0), (Z.testbit a 1), (Z.testbit a 2),
    (Z.testbit b 0), (Z.testbit b 1), (Z.testbit b 2),
    (Z.testbit a 16), (Z.testbit b 16);
    cbn [app orb String.concat];
    (split;
     [ intros H;
       first [ discriminate H
             | repeat split; try reflexivity; intros H';
               first [reflexivity | discriminate H'] ]
     | intros [H0 [H1 [H2 H3]]];
       first [ reflexivity | discriminate H0 | discriminate H1
             | discriminate H2
             | specialize (H3 eq_refl); discriminate H3 ] ]).
Qed.

(** X2. The shape of every reading [read_all] returns: [tc_temp] is set
    exactly when connected without a fault, [internal_temp] and [raw]
    exactly when connected, a reading that is not connected carries a
    fault message, and [fault] is never the empty string. *)
Theorem read_all_shape (impl : float_impl) (data : bytearray4) :
  let r := read_all impl data in
  (tc_temp r <> None <-> connected r = true /\ fault r = None) /\
  (internal_temp r <> None <-> connected r = true) /\
  (raw r <> None <-> connected r = true) /\
  (connected r = false -> fault r <> None) /\
  (Py.truthy_str (fault r) = true <-> fault r <> None).
Proof.
  intros r. subst r. unfold read_all.
  destruct (read_raw_cases data) as [[E R]|[[E R]|[N0 [N1 R]]]]; rewrite R.
  - cbn. split_conj; try (split; intros H); try intros H;
      try classify_done; try (destruct H; discriminate).
  - cbn. split_conj; try (split; intros H); try intros H;
      try classify_done; try (destruct H; discriminate).
  - rewrite read_all_from_connected.
    cbn [tc_temp internal_temp raw fault connected].
    destruct (Z.testbit (struct_unpack_BE_I data) 16) eqn:H16.
    + pose proof (get_fault_string_truthy _ H16) as Ht.
      destruct (get_fault_string (struct_unpack_BE_I data)) as [s|];
        [|discriminate Ht].
      split_conj; try (split; intros H); try intros H;
        try classify_done; try (destruct H; discriminate).
    + split_conj; try (split; intros H); try intros H;
        try classify_done; try (destruct H; discriminate).
Qed.

Lemma field_ext (a b lo width : Z) :
  0 <= lo -> 0 <= width ->
  (forall i, lo <= i < lo + width -> Z.testbit a i = Z.testbit b i) ->
  Spec.field a lo width = Spec.field b lo width.
Proof.
  intros Hlo Hw H. unfold Spec.field. apply Z.bits_inj'. intros n Hn.
  destruct (Z_lt_le_dec n width) as [Hlt|Hge].
  - rewrite !Z.mod_pow2_bits_low by lia.
    rewrite !Z.div_pow2_bits by lia. apply H. lia.
  - rewrite !Z.mod_pow2_bits_high by lia. reflexivity.
Qed.

(** X3. The reserved bits 3 and 17 (and anything above bit 31) never
    influence a reading: two frames that agree on every other bit decode to
    the same temperatures and the same fault. *)
Theorem read_all_ignores_reserved_bits (impl : float_impl) (a b : Z) :
  (forall i, 0 <= i < 32 -> i <> 3 -> i <> 17 ->
             Z.testbit a i = Z.testbit b i) ->
  let ra := read_all_from impl (Some a, None) in
  let rb := read_all_from impl (Some b, None) in
  tc_temp ra = tc_temp rb /\
  internal_temp ra = internal_temp rb /\
  fault ra = fault rb.
Proof.
  intros H ra rb. subst ra rb. rewrite !read_all_from_connected.
  cbn [tc_temp internal_temp fault].
  assert (Htc : Spec.tc_counts a = Spec.tc_counts b).
  { unfold Spec.tc_counts. rewrite (H 31) by lia. f_equal.
    apply field_ext; try lia. intros i Hi. apply H; lia. }
  assert (Hin : Spec.internal_counts a = Spec.internal_counts b).
  { unfold Spec.internal_counts. rewrite (H 15) by lia. f_equal.
    apply field_ext; try lia. intros i Hi. apply H; lia. }
  assert (Hf : get_fault_string a = get_fault_string b).
  { apply get_fault_string_ext; apply H; lia. }
  rewrite (H 16) by lia. rewrite Htc, Hin, Hf. repeat split.
Qed.

Lemma read_all_ignores_reserved_bits_witness :
  tc_temp (read_all_from FloatDouble (Some 0x01920198, None)) =
  tc_temp (read_all_from FloatDouble (Some 0x01900190, None)) /\
  internal_temp (read_all_from FloatDouble (Some 0x01920198, None)) =
  internal_temp (read_all_from FloatDouble (Some 0x01900190, None)).
Proof.
  assert (H : forall i, 0 <= i < 32 -> i <> 3 -> i <> 17 ->
                Z.testbit 0x01920198 i = Z.testbit 0x01900190 i).
  { intros i Hi H3 H17.
    assert (Hc : i = 0 \/ i = 1 \/ i = 2 \/ i = 4 \/ i = 5 \/ i = 6 \/ i = 7
                 \/ i = 8 \/ i = 9 \/ i = 10 \/ i = 11 \/ i = 12 \/ i = 13
                 \/ i = 14 \/ i = 15 \/ i = 16 \/ i = 18 \/ i = 19 \/ i = 20
                 \/ i = 21 \/ i = 22 \/ i = 23 \/ i = 24 \/ i = 25 \/ i = 26
                 \/ i = 27 \/ i = 28 \/ i = 29 \/ i = 30 \/ i = 31) by lia.
    repeat (destruct Hc as [->|Hc]; [reflexivity|]). subst i. reflexivity. }
  pose proof (read_all_ignores_reserved_bits FloatDouble _ _ H) as [Ht [Hi _]].
  split; [exact Ht | exact Hi].
Defined.

(** ** read_internal *)

(** X4. [read_internal] returns [False] exactly when the transport failed
    and otherwise the internal temperature as a float, also when a fault is
    present: it never returns [None], and on every frame for which
    [read_temp_c] returns [None] it still returns a temperature.  It prints
    the reading once. *)
Theorem read_internal_two_way (impl : float_impl) (data : bytearray4) :
  let v := fst (read_internal impl data) in
  (v = RFalse <-> data = all_zero \/ data = all_high) /\
  v <> RNone /\
  (data <> all_zero -> data <> all_high ->
   v = RFloat (Float.int_mul impl
                 (Spec.internal_counts (struct_unpack_BE_I data))
                 (f0_0625 impl))) /\
  (fst (read_temp_c impl data) = RNone -> exists t, v = RFloat t) /\
  snd (read_internal impl data) = [PrintDict (read_all impl data)].
Proof.
  intros v. subst v. unfold read_internal, read_temp_c, read_all.
  assert (Hd' : all_high <> all_zero) by discriminate.
  destruct (read_raw_cases data) as [[E R]|[[E R]|[N0 [N1 R]]]]; rewrite R.
  - cbn. split_conj; try (split; intros H); try intros H;
      try classify_done; try discriminate.
  - cbn. split_conj; try (split; intros H); try intros H;
      try classify_done; try discriminate.
  - rewrite read_all_from_connected. cbn [connected internal_temp negb fst snd].
    split_conj.
    + split; intros H; [discriminate H | destruct H; contradiction].
    + discriminate.
    + reflexivity.
    + intros _. eexists. reflexivity.
    + reflexivity.
Qed.

(** ** Encoding a frame and reading it back *)

Lemma byte_val_of_Z (z : Z) : byte_val (Spec.byte_of_Z z) = z mod 256.
Proof.
  pose proof (Z.mod_pos_bound z 256 ltac:(lia)) as Hm.
  unfold Spec.byte_of_Z, byte_val.
  destruct (Byte.of_N (Z.to_N (z mod 256))) as [b|] eqn:E.
  - apply Byte.to_of_N in E. rewrite E. apply Z2N.id. lia.
  - apply Byte.of_N_None_iff in E. lia.
Qed.

Lemma unpack_be_bytes (w : Z) :
  0 <= w < 2 ^ 32 -> struct_unpack_BE_I (Spec.be_bytes w) = w.
Proof.
  intros Hw. unfold Spec.be_bytes. rewrite struct_unpack_BE_I_sum.
  rewrite !byte_val_of_Z.
  change (2 ^ 32) with 4294967296 in Hw.
  change (2 ^ 24) with (256 * 256 * 256). change (2 ^ 16) with (256 * 256).
  change (2 ^ 8) with 256.
  rewrite <- !Z.div_div by lia.
  set (a := w / 256). set (b := a / 256). set (c := b / 256).
  pose proof (Z.div_mod w 256 ltac:(lia)) as E0.
  pose proof (Z.div_mod a 256 ltac:(lia)) as E1.
  pose proof (Z.div_mod b 256 ltac:(lia)) as E2.
  pose proof (Z.div_mod c 256 ltac:(lia)) as E3.
  fold a in E0. fold b in E1. fold c in E2.
  assert (Hc : c / 256 = 0).
  { apply Z.div_small. subst c b a. split.
    - repeat apply Z.div_pos; lia.
    - repeat (apply Z.div_lt_upper_bound; [lia|]). lia. }
  rewrite Hc in E3. lia.
Qed.

Lemma encode_frame_sum (tc internal : Z) :
  Spec.encode_frame tc internal =
  (tc mod 2 ^ 14) * 2 ^ 18 + (internal mod 2 ^ 12) * 2 ^ 4.
Proof.
  unfold Spec.encode_frame.
  pose proof (Z.mod_pos_bound internal (2 ^ 12) ltac:(lia)) as Hi.
  rewrite (Z.shiftl_mul_pow2 (internal mod 2 ^ 12) 4) by lia.
  apply lor_shiftl_add; lia.
Qed.

Lemma encode_frame_facts (tc internal : Z) :
  -8192 <= tc < 8192 -> -2048 <= internal < 2048 ->
  let w := Spec.encode_frame tc internal in
  0 <= w < 2 ^ 32 /\
  Z.testbit w 16 = false /\
  Spec.tc_counts w = tc /\
  Spec.internal_counts w = internal /\
  (w = 0 <-> tc = 0 /\ internal = 0) /\
  w mod 16 = 0.
Proof.
  intros Ht Hi w. subst w.
  rewrite tc_counts_twos_complement, internal_counts_twos_complement.
  rewrite encode_frame_sum.
  change (2 ^ 32) with 4294967296. change (2 ^ 18) with 262144.
  change (2 ^ 14) with 16384. change (2 ^ 13) with 8192.
  change (2 ^ 12) with 4096. change (2 ^ 11) with 2048.
  change (2 ^ 4) with 16.
  pose proof (Z.mod_pos_bound tc 16384 ltac:(lia)) as Ha.
  pose proof (Z.mod_pos_bound internal 4096 ltac:(lia)) as Hb.
  assert (HA : tc mod 16384 = tc \/ tc mod 16384 = tc + 16384).
  { clear - Ht. Z.div_mod_to_equations. lia. }
  assert (HB : internal mod 4096 = internal
               \/ internal mod 4096 = internal + 4096).
  { clear - Hi. Z.div_mod_to_equations. lia. }
  set (A := tc mod 16384) in *. set (B := internal mod 4096) in *.
  clearbody A B.
  assert (Hq18 : (A * 262144 + B * 16) / 262144 = A).
  { symmetry. apply Z.div_unique with (r := B * 16); lia. }
  assert (Hq4 : (A * 262144 + B * 16) / 16 = A * 16384 + B).
  { symmetry. apply Z.div_unique with (r := 0); lia. }
  assert (Hq16 : (A * 262144 + B * 16) / 65536 = A * 4).
  { symmetry. apply Z.div_unique with (r := B * 16); lia. }
  split_conj.
  - lia.
  - lia.
  - apply Z.testbit_false; [lia|].
    change (2 ^ 16) with 65536. rewrite Hq16.
    replace (A * 4) with (A * 2 * 2) by ring. apply Z.mod_mul. lia.
  - rewrite Hq18. clear - HA Ha Ht. Z.div_mod_to_equations. lia.
  - rewrite Hq4.
    replace (A * 16384 + B + 2048) with (B + 2048 + A * 4 * 4096) by ring.
    rewrite Z.mod_add by lia.
    clear - HB Hb Hi. Z.div_mod_to_equations. lia.
  - clear - HA HB Ha Hb Ht Hi. split; intros H; lia.
  - replace (A * 262144 + B * 16) with ((A * 16384 + B) * 16) by ring.
    apply Z.mod_mul. lia.
Qed.


(** ** Formatting the frame *)

Lemma fixed_hex_zero (k : nat) : Spec.fixed_hex k 0 = repeat "0"%char k.
Proof.
  induction k as [|k IH]; [reflexivity|].
  cbn [Spec.fixed_hex]. change (0 / 16) with 0. change (0 mod 16) with 0.
  rewrite IH. change [Py.hex_digit_upper 0] with (repeat "0"%char 1).
  rewrite <- repeat_app. f_equal. lia.
Qed.

Lemma zfill_snoc (k : nat) (s : list ascii) (c : ascii) :
  Py.zfill (S k) (s ++ [c]) = Py.zfill k s ++ [c].
Proof.
  unfold Py.zfill. rewrite length_app. cbn [List.length].
  replace (S k - (List.length s + 1))%nat with (k - List.length s)%nat by lia.
  rewrite app_assoc. reflexivity.
Qed.

Lemma zfill_hex_upper (fuel : nat) :
  forall (k : nat) (z : Z),
    (1 <= k)%nat -> 0 <= z < 16 ^ Z.of_nat k -> z < 16 ^ Z.of_nat fuel ->
    Py.zfill k (Py.hex_upper fuel z) = Spec.fixed_hex k z.
Proof.
  induction fuel as [|fuel IH]; intros k z Hk Hz Hf.
  - change (16 ^ Z.of_nat 0) with 1 in Hf. assert (z = 0) by lia. subst z.
    cbn [Py.hex_upper]. unfold Py.zfill. cbn [List.length].
    rewrite fixed_hex_zero, app_nil_r. f_equal. lia.
  - destruct k as [|k]; [lia|].
    cbn [Py.hex_upper Spec.fixed_hex].
    rewrite Nat2Z.inj_succ, Z.pow_succ_r in Hz, Hf by lia.
    destruct (Z.eqb_spec (z / 16) 0) as [E|E].
    + rewrite E, fixed_hex_zero. cbn [app]. unfold Py.zfill.
      cbn [List.length]. f_equal. f_equal. lia.
    + rewrite zfill_snoc. f_equal.
      assert (Hq : 0 <= z / 16) by (apply Z.div_pos; lia).
      assert (Hk' : (1 <= k)%nat).
      { destruct k as [|k]; [|lia]. exfalso. apply E.
        change (16 ^ Z.of_nat 0) with 1 in Hz. apply Z.div_small. lia. }
      apply IH; try assumption.
      * split; [exact Hq|]. apply Z.div_lt_upper_bound; lia.
      * apply Z.div_lt_upper_bound; lia.
Qed.

Lemma format_X_fuel (z : Z) :
  0 <= z -> z < 16 ^ Z.of_nat (S (Z.to_nat (Z.log2 z))).
Proof.
  intros Hz. pose proof (Z.log2_nonneg z) as Hl.
  rewrite Nat2Z.inj_succ, Z2Nat.id by exact Hl.
  destruct (Z.eq_dec z 0) as [->|Hne].
  - reflexivity.
  - pose proof (Z.log2_spec z ltac:(lia)) as [_ Hu].
    apply Z.lt_le_trans with (1 := Hu).
    apply Z.pow_le_mono_l. lia.
Qed.

Lemma hex_digit_value_upper (d : Z) :
  0 <= d < 16 -> Spec.hex_digit_value (Py.hex_digit_upper d) = d.
Proof.
  intros Hd.
  assert (Hc : d = 0 \/ d = 1 \/ d = 2 \/ d = 3 \/ d = 4 \/ d = 5 \/ d = 6
               \/ d = 7 \/ d = 8 \/ d = 9 \/ d = 10 \/ d = 11 \/ d = 12
               \/ d = 13 \/ d = 14 \/ d = 15) by lia.
  repeat (destruct Hc as [->|Hc]; [reflexivity|]). subst d. reflexivity.
Qed.

Lemma hex_value_snoc (s : list ascii) (c : ascii) :
  Spec.hex_value (s ++ [c]) = Spec.hex_value s * 16 + Spec.hex_digit_value c.
Proof. unfold Spec.hex_value. rewrite fold_left_app. reflexivity. Qed.

Lemma hex_value_fixed_hex (k : nat) :
  forall z, 0 <= z < 16 ^ Z.of_nat k -> Spec.hex_value (Spec.fixed_hex k z) = z.
Proof.
  induction k as [|k IH]; intros z Hz.
  - change (16 ^ Z.of_nat 0) with 1 in Hz. cbn. lia.
  - rewrite Nat2Z.inj_succ, Z.pow_succ_r in Hz by lia.
    cbn [Spec.fixed_hex]. rewrite hex_value_snoc.
    rewrite hex_digit_value_upper by (apply Z.mod_pos_bound; lia).
    rewrite IH.
    + pose proof (Z.div_mod z 16 ltac:(lia)). lia.
    + split; [apply Z.div_pos; lia | apply Z.div_lt_upper_bound; lia].
Qed.

Lemma fixed_hex_length (k : nat) (z : Z) : List.length (Spec.fixed_hex k z) = k.
Proof.
  revert z. induction k as [|k IH]; intros z; [reflexivity|].
  cbn [Spec.fixed_hex]. rewrite length_app, IH. cbn. lia.
Qed.

Lemma format_08X_fixed (z : Z) :
  0 <= z < 2 ^ 32 ->
  Py.format_08X z = string_of_list_ascii (Spec.fixed_hex 8 z).
Proof.
  intros Hz. unfold Py.format_08X.
  destruct (Z.ltb_spec z 0) as [Hneg|_]; [lia|].
  f_equal. unfold Py.format_X. apply zfill_hex_upper.
  - lia.
  - exact Hz.
  - apply format_X_fuel. lia.
Qed.

(** X6. The raw value is printed in full: for every 32-bit frame the
    format 08X gives exactly eight upper-case hexadecimal digits, the digit
    for 16^7 first, and reading them back as a hexadecimal number gives the
    frame again. *)
Theorem format_08X_round_trip (z : Z) :
  0 <= z < 2 ^ 32 ->
  Py.format_08X z =
    string_of_list_ascii
      (map (fun i => Py.hex_digit_upper ((z / 16 ^ i) mod 16))
         [7; 6; 5; 4; 3; 2; 1; 0]) /\
  String.length (Py.format_08X z) = 8%nat /\
  Spec.hex_value (list_ascii_of_string (Py.format_08X z)) = z.
Proof.
  intros Hz. rewrite format_08X_fixed by exact Hz. split_conj.
  - f_equal. cbn [Spec.fixed_hex map app].
    rewrite !Z.div_div by lia. rewrite Z.pow_0_r, Z.div_1_r.
    reflexivity.
  - rewrite <- (fixed_hex_length 8 z) at 2.
    generalize (Spec.fixed_hex 8 z). intros l.
    induction l as [|c l IH]; [reflexivity|]. cbn. rewrite IH. reflexivity.
  - rewrite list_ascii_of_string_of_list_ascii.
    apply hex_value_fixed_hex. exact Hz.
Qed.

Lemma format_08X_round_trip_witness :
  0 <= 0xFD800000 < 2 ^ 32 /\
  Py.format_08X 0xFD800000 = "FD800000"%string /\
  Spec.hex_value (list_ascii_of_string (Py.format_08X 0xFD800000))
    = 0xFD800000.
Proof.
  split; [lia|].
  pose proof (format_08X_round_trip 0xFD800000 ltac:(lia)) as [Hs [_ Hv]].
  split; [exact Hs | exact Hv].
Defined.

(** ** diagnose *)

(** X7. [diagnose] never raises and its report has two lines when the
    transport failed ("Connected: False" and the error) and four lines
    otherwise: "Connected: True", the raw value as eight hexadecimal
    digits, and then either the thermocouple and the internal temperature
    (bit 16 clear) or the internal temperature and the fault (bit 16 set);
    the thermocouple line and the fault line never appear together. *)
Theorem diagnose_report (impl : float_impl) (format_2f : spec_float -> string)
    (data : bytearray4) :
  diagnose impl format_2f data =
  Returns
    (Py.join newline
       (match read_raw data with
        | (Some w, _) =>
            let raw_line :=
              ("Raw value: 0x" ++ string_of_list_ascii (Spec.fixed_hex 8 w))
              %string in
            let internal_line :=
              ("Internal: "
               ++ format_2f (Float.int_mul impl (Spec.internal_counts w)
                               (f0_0625 impl))
               ++ degree_C)%string in
            let tc_line :=
              ("TC Temp: "
               ++ format_2f (Float.int_mul impl (Spec.tc_counts w)
                               (f0_25 impl))
               ++ degree_C)%string in
            let fault_line :=
              ("FAULT: " ++ Py.str_opt (get_fault_string w))%string in
            if Z.testbit w 16
            then ["Connected: True"%string; raw_line; internal_line;
                  fault_line]
            else ["Connected: True"%string; raw_line; tc_line;
                  internal_line]
        | (None, error) =>
            ["Connected: False"%string;
             ("Error: " ++ Py.str_opt error)%string]
        end)).
Proof.
  unfold diagnose, read_all.
  destruct (read_raw_cases data) as [[E R]|[[E R]|[N0 [N1 R]]]]; rewrite R.
  - reflexivity.
  - reflexivity.
  - rewrite read_all_from_connected. unfold diagnose_from.
    cbn [connected raw tc_temp internal_temp fault].
    rewrite (format_08X_fixed _ (struct_unpack_BE_I_range data)).
    destruct (Z.testbit (struct_unpack_BE_I data) 16) eqn:H16.
    + rewrite (get_fault_string_truthy _ H16). reflexivity.
    + reflexivity.
Qed.

(** ** The methods on the bus *)

Lemma device_read_raw_run (w : Device.World) :
  Device.read_raw w =
  (read_raw (Device.miso w (Device.transfers w)),
   Device.mkWorld true (Device.miso w) (S (Device.transfers w))
     (Device.trace w
      ++ Device.transaction (Device.miso w (Device.transfers w)))).
Proof.
  unfold Device.read_raw, Device.bind, Device.ret, Device.cs_value,
    Device.sleep_us, Device.spi_readinto, Device.transaction.
  cbn. rewrite <- !app_assoc. reflexivity.
Qed.

Lemma device_read_all_run (impl : float_impl) (w : Device.World) :
  Device.read_all impl w =
  (read_all impl (Device.miso w (Device.transfers w)),
   Device.mkWorld true (Device.miso w) (S (Device.transfers w))
     (Device.trace w
      ++ Device.transaction (Device.miso w (Device.transfers w)))).
Proof.
  unfold Device.read_all, Device.bind. rewrite device_read_raw_run.
  reflexivity.
Qed.

(** One call: one transaction on the bus, then what the method prints; the
    result is the one computed from the frame read. *)
Lemma device_call_run (impl : float_impl) (format_2f : spec_float -> string)
    (m : Device.method) (w : Device.World) :
  Device.call impl format_2f m w =
  (Device.answer impl format_2f m (Device.miso w (Device.transfers w)),
   Device.mkWorld true (Device.miso w) (S (Device.transfers w))
     (Device.trace w
      ++ Device.transaction (Device.miso w (Device.transfers w))
      ++ map Device.Print
           (Device.prints impl m (Device.miso w (Device.transfers w))))).
Proof.
  destruct m; unfold Device.call, Device.bind, Device.answer, Device.prints.
  - rewrite device_read_raw_run. cbn [map]. rewrite app_nil_r. reflexivity.
  - rewrite device_read_all_run. cbn [map]. rewrite app_nil_r. reflexivity.
  - unfold Device.read_temp_c, Device.bind. rewrite device_read_all_run.
    unfold read_temp_c.
    set (r := read_all impl (Device.miso w (Device.transfers w))).
    destruct (connected r); cbn [negb].
    + destruct (Py.truthy_str (fault r)).
      * unfold Device.print, Device.ret. cbn.
        rewrite <- !app_assoc. reflexivity.
      * unfold Device.ret. cbn. reflexivity.
    + unfold Device.ret. cbn. reflexivity.
  - unfold Device.read_internal, Device.bind. rewrite device_read_all_run.
    unfold read_internal.
    set (r := read_all impl (Device.miso w (Device.transfers w))).
    unfold Device.print, Device.ret.
    destruct (connected r); cbn; rewrite <- !app_assoc; reflexivity.
  - unfold Device.diagnose, Device.bind. rewrite device_read_all_run.
    unfold Device.ret, diagnose. cbn [map]. rewrite app_nil_r. reflexivity.
Qed.

(** X8. Calls in sequence: the n-th call of any of the five methods makes
    exactly one transfer and returns what the frame of that transfer alone
    determines; nothing is retried after a failure and nothing is kept from
    earlier calls. *)
Theorem calls_answers (impl : float_impl) (format_2f : spec_float -> string)
    (ms : list Device.method) :
  forall w : Device.World,
    fst (Device.calls impl format_2f ms w) =
      map (fun nm => Device.answer impl format_2f (snd nm)
                       (Device.miso w (fst nm)))
        (combine (seq (Device.transfers w) (List.length ms)) ms) /\
    Device.transfers (snd (Device.calls impl format_2f ms w)) =
      (Device.transfers w + List.length ms)%nat /\
    Device.miso (snd (Device.calls impl format_2f ms w)) = Device.miso w.
Proof.
  induction ms as [|m ms IH]; intros w.
  - cbn. repeat split. lia.
  - cbn [Device.calls]. unfold Device.bind, Device.ret.
    rewrite device_call_run.
    set (w1 := Device.mkWorld _ _ _ _).
    specialize (IH w1).
    destruct (Device.calls impl format_2f ms w1) as [rs w2].
    cbn [fst snd] in IH |- *. destruct IH as [Hr [Ht Hm]].
    subst w1. cbn [Device.transfers Device.miso] in Hr, Ht, Hm.
    cbn [List.length seq combine map fst snd].
    rewrite Hr, Ht, Hm. repeat split. lia.
Qed.

Lemma run_app (p : Device.phase) (a b : list Device.event) :
  Device.run p (a ++ b) =
  match Device.run p a with
  | Some p' => Device.run p' b
  | None => None
  end.
Proof.
  revert p. induction a as [|e a IH]; intros p; [reflexivity|].
  cbn [app Device.run]. destruct (Device.step p e); [apply IH|reflexivity].
Qed.

Lemma run_prints (p : Device.phase) (l : list printed) :
  Device.run p (map Device.Print l) = Some p.
Proof. induction l as [|x l IH]; [reflexivity|]. cbn. exact IH. Qed.

Lemma frames_read_app (a b : list Device.event) :
  Device.frames_read (a ++ b) = Device.frames_read a ++ Device.frames_read b.
Proof.
  induction a as [|e a IH]; [reflexivity|].
  destruct e; cbn [app Device.frames_read]; rewrite IH; reflexivity.
Qed.

Lemma frames_read_prints (l : list printed) :
  Device.frames_read (map Device.Print l) = [].
Proof. induction l as [|x l IH]; [reflexivity|]. cbn. exact IH. Qed.

Lemma bus_events_app (a b : list Device.event) :
  Device.bus_events (a ++ b) = Device.bus_events a ++ Device.bus_events b.
Proof. unfold Device.bus_events. apply filter_app. Qed.

Lemma bus_events_prints (l : list printed) :
  Device.bus_events (map Device.Print l) = [].
Proof. induction l as [|x l IH]; [reflexivity|]. cbn. exact IH. Qed.

Lemma calls_trace (impl : float_impl) (format_2f : spec_float -> string)
    (ms : list Device.method) :
  forall w : Device.World,
    exists tr,
      Device.trace (snd (Device.calls impl format_2f ms w))
        = Device.trace w ++ tr /\
      Device.bus_events tr =
        List.concat (map Device.transaction
                  (map (Device.miso w)
                     (seq (Device.transfers w) (List.length ms)))) /\
      Device.run Device.Idle tr = Some Device.Idle /\
      (Device.cs_pin w = true ->
       Device.cs_pin (snd (Device.calls impl format_2f ms w)) = true) /\
      Device.frames_read tr =
        map (Device.miso w) (seq (Device.transfers w) (List.length ms)).
Proof.
  induction ms as [|m ms IH]; intros w.
  - exists []. cbn. rewrite app_nil_r. auto.
  - cbn [Device.calls]. unfold Device.bind, Device.ret.
    rewrite device_call_run.
    set (d := Device.miso w (Device.transfers w)).
    set (w1 := Device.mkWorld _ _ _ _).
    destruct (IH w1) as [tr [Htr [Hbus [Hrun [Hpin Hfr]]]]].
    destruct (Device.calls impl format_2f ms w1) as [rs w2].
    cbn [fst snd] in Htr, Hpin |- *.
    exists (Device.transaction d ++ map Device.Print (Device.prints impl m d)
            ++ tr).
    subst w1.
    cbn [Device.trace Device.transfers Device.miso Device.cs_pin]
      in Htr, Hbus, Hfr, Hpin.
    split_conj.
    + rewrite Htr. rewrite <- !app_assoc. reflexivity.
    + rewrite !bus_events_app, bus_events_prints, Hbus.
      cbn [List.length seq map List.concat app]. reflexivity.
    + rewrite run_app. cbn [Device.transaction Device.run Device.step].
      change (10 <=? 10) with true. cbn iota.
      rewrite run_app, run_prints. exact Hrun.
    + intros _. apply Hpin. reflexivity.
    + rewrite !frames_read_app, frames_read_prints, Hfr. reflexivity.
Qed.

(** X9. The access protocol is respected: [__init__] drives chip-select
    high, whatever its level was before, and waits; after that, whatever
    methods are called in whatever order, the pin, clock and bus see
    exactly one transaction for each call and nothing else: chip-select
    low, a delay of 10 microseconds, one transfer of the next frame of the
    bus, chip-select high.  So every transfer happens with chip-select low
    and after the delay, there is exactly one transfer for each time
    chip-select goes low, and chip-select is high in the end. *)
Theorem bus_protocol_respected (impl : float_impl)
    (format_2f : spec_float -> string) (ms : list Device.method)
    (w : Device.World) :
  let w' :=
    snd (Device.bind Device.init
           (fun _ => Device.calls impl format_2f ms) w) in
  let frames :=
    map (Device.miso w) (seq (Device.transfers w) (List.length ms)) in
  exists tr,
    Device.trace w' =
      Device.trace w ++ [Device.CsValue true; Device.Sleep 0.1] ++ tr /\
    Device.bus_events tr = List.concat (map Device.transaction frames) /\
    Device.run Device.Idle tr = Some Device.Idle /\
    Device.frames_read tr = frames /\
    Device.cs_pin w' = true.
Proof.
  intros w' frames. subst w' frames.
  unfold Device.bind at 1, Device.init, Device.bind at 1, Device.cs_value,
    Device.sleep.
  cbn [Device.cs_pin Device.miso Device.transfers Device.trace].
  set (w1 := Device.mkWorld _ _ _ _).
  destruct (calls_trace impl format_2f ms w1)
    as [tr [Htr [Hbus [Hrun [Hpin Hfr]]]]].
  exists tr.
  subst w1.
  cbn [Device.trace Device.transfers Device.miso Device.cs_pin]
    in Htr, Hbus, Hfr, Hpin.
  split_conj.
  - rewrite Htr. rewrite <- !app_assoc. reflexivity.
  - exact Hbus.
  - exact Hrun.
  - exact Hfr.
  - apply Hpin. reflexivity.
Qed.

(** The protocol accepts no chip-select pulse without a transfer, no
    transfer before the delay and no second transfer in one assertion. *)
Example protocol_rejects (d : bytearray4) :
  Device.run Device.Idle [Device.CsValue false; Device.CsValue true] = None /\
  Device.run Device.Idle
    [Device.CsValue false; Device.SpiReadinto d; Device.CsValue true] = None /\
  Device.run Device.Idle
    [Device.CsValue false; Device.SleepUs 10; Device.SpiReadinto d;
     Device.SpiReadinto d; Device.CsValue true] = None /\
  Device.run Device.Idle
    (Device.transaction d ++ [Device.CsValue false; Device.CsValue true])
    = None.
Proof. repeat split. Qed.
